(** * dentist-api: appointment lifecycle and role-based access control

    A shallow embedding of the request handlers of the clinic backend
    ([internal/handlers], [internal/services], [internal/utils],
    [internal/models]) together with the small part of the document store,
    of the object-id and of the time library that the handlers rely on.

    Handlers are functions from a request context and a database to a
    response and a new database.  The decisions that the handlers do not
    control (a store operation failing, the object id the generator yields,
    the wall clock) are inputs, gathered in [Env]. *)

From Stdlib Require Import ZArith NArith Ascii String List Lia.
From stdpp Require Import base decidable option list sorting gmap strings fin_maps.

Local Open Scope string_scope.
Local Open Scope Z_scope.

(** Go's [error] values are only ever tested against [nil] by the handlers;
    the text is kept for readability. *)
Definition error := string.

(* ===================================================================== *)
(** ** [time]: instants, the two layouts the handlers parse *)
(* ===================================================================== *)

Module time.

(** An instant, as the document store keeps it: milliseconds since the
    Unix epoch, UTC. *)
Definition Time := Z.
Definition Duration := Z.

Definition Millisecond : Duration := 1.
Definition Second : Duration := 1000 * Millisecond.
Definition Minute : Duration := 60 * Second.
Definition Hour : Duration := 60 * Minute.

Definition Add (t : Time) (d : Duration) : Time := t + d.

Definition isLeap (y : Z) : bool :=
  (y mod 4 =? 0) && (negb (y mod 100 =? 0) || (y mod 400 =? 0)).

Definition daysIn (m y : Z) : Z :=
  if m =? 2 then (if isLeap y then 29 else 28)
  else if (m =? 4) || (m =? 6) || (m =? 9) || (m =? 11) then 30
  else 31.

(** Days between 1970-01-01 and the civil date [y]-[m]-[d] (proleptic
    Gregorian calendar). *)
Definition daysSinceEpoch (y m d : Z) : Z :=
  let y' := if m <=? 2 then y - 1 else y in
  let era := y' / 400 in
  let yoe := y' - era * 400 in
  let mp := if 2 <? m then m - 3 else m + 9 in
  let doy := (153 * mp + 2) / 5 + d - 1 in
  let doe := yoe * 365 + yoe / 4 - yoe / 100 + doy in
  era * 146097 + doe - 719468.

(** [time.Date(y, m, d, hh, mm, ss, 0, time.UTC)] with milliseconds. *)
Definition Date (y m d hh mm ss ms : Z) : Time :=
  daysSinceEpoch y m d * (24 * Hour) + hh * Hour + mm * Minute + ss * Second + ms.

Definition digit (c : ascii) : option Z :=
  let n := Z.of_nat (nat_of_ascii c) in
  if (48 <=? n) && (n <=? 57) then Some (n - 48) else None.

(** A fixed number of leading decimal digits and the rest of the text
    (the four digits of the year). *)
Fixpoint digits (width : nat) (acc : Z) (s : string) : option (Z * string) :=
  match width with
  | O => Some (acc, s)
  | S w =>
      match s with
      | String c rest =>
          match digit c with
          | Some v => digits w (acc * 10 + v) rest
          | None => None
          end
      | EmptyString => None
      end
  end.

(** The library's [getnum(s, fixed)]: one or two leading digits, two of
    them when there are two; a single digit is an error when [fixed]. *)
Definition getnum (s : string) (fixed : bool) : option (Z * string) :=
  match s with
  | String c0 rest0 =>
      match digit c0 with
      | Some d0 =>
          let one := if fixed then None else Some (d0, rest0) in
          match rest0 with
          | String c1 rest1 =>
              match digit c1 with
              | Some d1 => Some (d0 * 10 + d1, rest1)
              | None => one
              end
          | EmptyString => one
          end
      | None => None
      end
  | EmptyString => None
  end.

Definition expect (c : ascii) (s : string) : option string :=
  match s with
  | String c' rest => if Ascii.eqb c c' then Some rest else None
  | EmptyString => None
  end.

(** The date prefix [2006-01-02], with the library's range checks on
    month and day. *)
Definition parseDate (s : string) : option (Z * Z * Z * string) :=
  '(y, s) ← digits 4 0 s;
  s ← expect "-" s;
  '(m, s) ← getnum s true;
  s ← expect "-" s;
  '(d, s) ← getnum s true;
  if (1 <=? m) && (m <=? 12) && (1 <=? d) && (d <=? daysIn m y)
  then Some (y, m, d, s) else None.

(** [time.Parse("2006-01-02", s)]: midnight UTC of the day, or an error
    ([None]) when the text is not exactly a valid date. *)
Definition ParseDateOnly (s : string) : option Time :=
  '(y, m, d, rest) ← parseDate s;
  match rest with
  | EmptyString => Some (Date y m d 0 0 0 0)
  | _ => None
  end.

(** Fractional seconds: the digits after the separator, of which the
    store keeps the first three (milliseconds). *)
Fixpoint fraction (scale : Z) (acc : Z) (s : string) : Z * string :=
  match s with
  | String c rest =>
      match digit c with
      | Some v => fraction (scale / 10) (acc + v * scale) rest
      | None => (acc, s)
      end
  | EmptyString => (acc, s)
  end.

Definition parseFraction (s : string) : Z * string :=
  match s with
  | String sep (String c rest as digits) =>
      if (Ascii.eqb sep "." || Ascii.eqb sep ",")%bool then
        match digit c with
        | Some _ => fraction 100 0 digits
        | None => (0, s)
        end
      else (0, s)
  | _ => (0, s)
  end.

(** The zone [Z07:00]: the offset east of UTC, in minutes.  The library
    tests the ranges with [>]: offsets of 24 hours and of 60 minutes are
    accepted. *)
Definition parseZone (s : string) : option Z :=
  match s with
  | String c rest =>
      if Ascii.eqb c "Z" then
        match rest with EmptyString => Some 0 | _ => None end
      else
        let sign := if Ascii.eqb c "+" then Some 1
                    else if Ascii.eqb c "-" then Some (-1) else None in
        sg ← sign;
        '(hh, s) ← getnum rest true;
        s ← expect ":" s;
        '(mm, s) ← getnum s true;
        match s with
        | EmptyString =>
            if (hh <=? 24) && (mm <=? 60) then Some (sg * (hh * 60 + mm)) else None
        | _ => None
        end
  | EmptyString => None
  end.

(** [time.Parse(time.RFC3339, s)], that is the layout
    [2006-01-02T15:04:05Z07:00]: the hour [15] is read with
    [getnum(value, false)], of one or two digits; month, day, minute and
    second are of two digits; a fraction of a second may follow the
    seconds. *)
Definition ParseRFC3339 (s : string) : option Time :=
  '(y, m, d, s) ← parseDate s;
  s ← expect "T" s;
  '(hh, s) ← getnum s false;
  s ← expect ":" s;
  '(mi, s) ← getnum s true;
  s ← expect ":" s;
  '(ss, s) ← getnum s true;
  let '(ms, s) := parseFraction s in
  off ← parseZone s;
  if (hh <? 24) && (mi <? 60) && (ss <? 60)
  then Some (Date y m d hh mi ss ms - off * Minute) else None.

End time.

(* ===================================================================== *)
(** ** [primitive]: object identifiers *)
(* ===================================================================== *)

Module primitive.

(** A 12-byte identifier, read as a big-endian number. *)
Definition ObjectID := N.
Definition NilObjectID : ObjectID := 0%N.

Definition fromHexChar (c : ascii) : option N :=
  let n := N_of_ascii c in
  if ((48 <=? n) && (n <=? 57))%N then Some (n - 48)%N
  else if ((97 <=? n) && (n <=? 102))%N then Some (n - 87)%N
  else if ((65 <=? n) && (n <=? 70))%N then Some (n - 55)%N
  else None.

Fixpoint decode (acc : N) (s : string) : option N :=
  match s with
  | EmptyString => Some acc
  | String c rest =>
      match fromHexChar c with
      | Some v => decode (acc * 16 + v)%N rest
      | None => None
      end
  end.

(** [primitive.ObjectIDFromHex]: on an error the identifier returned is
    [NilObjectID]. *)
Definition ObjectIDFromHex (s : string) : ObjectID * option error :=
  if (String.length s =? 24)%nat then
    match decode 0%N s with
    | Some o => (o, None)
    | None => (NilObjectID, Some "encoding/hex: invalid byte")
    end
  else (NilObjectID, Some "the provided hex string is not a valid ObjectID").

Definition toHexChar (v : N) : ascii :=
  if (v <? 10)%N then ascii_of_N (v + 48) else ascii_of_N (v + 87).

Fixpoint hexDigits (n : nat) (o : N) (acc : string) : string :=
  match n with
  | O => acc
  | S k => hexDigits k (o / 16)%N (String (toHexChar (o mod 16)%N) acc)
  end.

(** [ObjectID.Hex]. *)
Definition Hex (o : ObjectID) : string := hexDigits 24 o "".

End primitive.

(* ===================================================================== *)
(** ** [bson]: the documents the handlers build *)
(* ===================================================================== *)

Module bson.

(** The values the handlers put into a [bson.M]. *)
Inductive value :=
| ObjectID (o : primitive.ObjectID)
| String (s : string)
| DateTime (t : time.Time).

#[global] Instance value_eq_dec : EqDecision value.
Proof. solve_decision. Defined.

(** What a filter says about one field: a plain value (equality) or a
    nested [bson.M] of query operators. *)
Inductive cond :=
| Is (v : value)
| Ops (ops : gmap string value).

(** A struct with [bson] tags: its fields by their stored names, and the
    effect of [$set]: every field named in the update takes the new value,
    every other field keeps its own. *)
Class Document (A : Type) := {
  field : A → string → option value;
  set : gmap string value → A → A
}.

(** A query operator [op] with operand [v], applied to a stored value
    [x].  The handlers issue only [$gte] and [$lte], on timestamps. *)
Definition holdsOp (op : string) (v x : value) : bool :=
  match v, x with
  | DateTime b, DateTime a =>
      if decide (op = "$gte") then (b <=? a)
      else if decide (op = "$lte") then (a <=? b)
      else false
  | _, _ => false
  end.

Definition holds (c : cond) (x : option value) : bool :=
  match x with
  | Some x =>
      match c with
      | Is v => bool_decide (x = v)
      | Ops ops => forallb (λ '(op, v), holdsOp op v x) (map_to_list ops)
      end
  | None => false
  end.

(** A document matches a filter when every entry of the filter holds of
    the field it names. *)
Definition matches `{Document A} (filter : gmap string cond) (d : A) : bool :=
  forallb (λ '(k, c), holds c (field d k)) (map_to_list filter).

End bson.

(* ===================================================================== *)
(** ** [models] *)
(* ===================================================================== *)

Module models.

Record User := {
  User_ID : primitive.ObjectID;
  FullName : string;
  Email : string;
  Password : string;
  Role : string;
  Phone : string
}.

Record Appointment := {
  ID : primitive.ObjectID;
  PatientID : primitive.ObjectID;
  PatientName : string;
  StartTime : time.Time;
  EndTime : time.Time;
  Service : string;
  Status : string
}.

#[global] Instance User_eq_dec : EqDecision User.
Proof. solve_decision. Defined.

#[global] Instance Appointment_eq_dec : EqDecision Appointment.
Proof. solve_decision. Defined.

Definition orString (fields : gmap string bson.value) (k : string) (old : string) : string :=
  match fields !! k with
  | Some (bson.String s) => s
  | _ => old
  end.

Definition orTime (fields : gmap string bson.value) (k : string) (old : time.Time) : time.Time :=
  match fields !! k with
  | Some (bson.DateTime t) => t
  | _ => old
  end.

(** The [bson] tags of [User]. *)
#[global] Instance User_document : bson.Document User := {|
  bson.field u k :=
    if decide (k = "_id") then Some (bson.ObjectID (User_ID u))
    else if decide (k = "fullName") then Some (bson.String (FullName u))
    else if decide (k = "email") then Some (bson.String (Email u))
    else if decide (k = "password") then Some (bson.String (Password u))
    else if decide (k = "role") then Some (bson.String (Role u))
    else if decide (k = "phone") then Some (bson.String (Phone u))
    else None;
  bson.set fields u :=
    {| User_ID := User_ID u;
       FullName := orString fields "fullName" (FullName u);
       Email := orString fields "email" (Email u);
       Password := orString fields "password" (Password u);
       Role := orString fields "role" (Role u);
       Phone := orString fields "phone" (Phone u) |}
|}.

(** The [bson] tags of [Appointment].  The identifiers are never the
    target of an update. *)
#[global] Instance Appointment_document : bson.Document Appointment := {|
  bson.field a k :=
    if decide (k = "_id") then Some (bson.ObjectID (ID a))
    else if decide (k = "patientId") then Some (bson.ObjectID (PatientID a))
    else if decide (k = "patientName") then Some (bson.String (PatientName a))
    else if decide (k = "startTime") then Some (bson.DateTime (StartTime a))
    else if decide (k = "endTime") then Some (bson.DateTime (EndTime a))
    else if decide (k = "service") then Some (bson.String (Service a))
    else if decide (k = "status") then Some (bson.String (Status a))
    else None;
  bson.set fields a :=
    {| ID := ID a;
       PatientID := PatientID a;
       PatientName := orString fields "patientName" (PatientName a);
       StartTime := orTime fields "startTime" (StartTime a);
       EndTime := orTime fields "endTime" (EndTime a);
       Service := orString fields "service" (Service a);
       Status := orString fields "status" (Status a) |}
|}.

End models.

(* ===================================================================== *)
(** ** [mongo]: collections of documents *)
(* ===================================================================== *)

Module mongo.

Record Database := {
  users : list models.User;
  appointments : list models.Appointment
}.

Section Collection.
Context {A : Type} `{bson.Document A}.

(** The documents a filter selects, in the collection's natural order. *)
Definition find (filter : gmap string bson.cond) (docs : list A) : list A :=
  List.filter (bson.matches filter) docs.

Definition findOne (filter : gmap string bson.cond) (docs : list A) : option A :=
  head (find filter docs).

(** [UpdateOne]: the first matching document takes the update; the count
    of matched documents is returned with the collection. *)
Fixpoint updateOne (filter : gmap string bson.cond) (fields : gmap string bson.value)
    (docs : list A) : list A * nat :=
  match docs with
  | [] => ([], 0%nat)
  | d :: rest =>
      if bson.matches filter d then (bson.set fields d :: rest, 1%nat)
      else let '(rest', n) := updateOne filter fields rest in (d :: rest', n)
  end.

(** A unique index on each of the [unique] keys. *)
Definition duplicateKey (unique : list string) (d : A) (docs : list A) : bool :=
  existsb (λ d', existsb (λ k, bool_decide (bson.field d k = bson.field d' k)) unique) docs.

Definition insertOne (unique : list string) (d : A) (docs : list A) : option (list A) :=
  if duplicateKey unique d docs then None else Some (app docs [d]).

(** The order of [SetSort(bson.D{{Key: key, Value: dir}})] on timestamps:
    ascending for [1], descending for [-1]. *)
Definition ordered (key : string) (dir : Z) (a b : A) : Prop :=
  match bson.field a key, bson.field b key with
  | Some (bson.DateTime x), Some (bson.DateTime y) =>
      if dir =? 1 then x ≤ y else y ≤ x
  | _, _ => True
  end.

#[global] Instance ordered_dec key dir a b : Decision (ordered key dir a b).
Proof.
  unfold ordered.
  destruct (bson.field a key) as [[| |x]|], (bson.field b key) as [[| |y]|];
    try (left; exact I).
  destruct (dir =? 1); apply Z.le_dec.
Defined.

Definition sortBy (key : string) (dir : Z) (docs : list A) : list A :=
  merge_sort (ordered key dir) docs.

(** [cursor.All(ctx, &results)]: the slice is overwritten with the
    documents of the cursor, except that a nil slice ([None]) is left as
    it is when the cursor is empty. *)
Definition All (docs : list A) (results : option (list A)) : option (list A) :=
  match docs, results with
  | [], None => None
  | _, _ => Some docs
  end.

End Collection.

(** The unique indexes of the two collections.  The store indexes [_id]
    of every collection.  [RegisterUser] reports a duplicate e-mail
    address from the store's duplicate-key error, but the program creates
    no index on the address: whether the users collection has one
    ([emailIndex]) is a matter of the store the program is run on. *)
Definition usersUnique (emailIndex : bool) : list string :=
  if emailIndex then ["_id"; "email"] else ["_id"].
Definition appointmentsUnique : list string := ["_id"].

End mongo.

(* ===================================================================== *)
(** ** [net/http] and [gin]: requests and responses *)
(* ===================================================================== *)

Module http.
Definition StatusOK : Z := 200.
Definition StatusCreated : Z := 201.
Definition StatusBadRequest : Z := 400.
Definition StatusUnauthorized : Z := 401.
Definition StatusForbidden : Z := 403.
Definition StatusNotFound : Z := 404.
Definition StatusConflict : Z := 409.
Definition StatusInternalServerError : Z := 500.
End http.

Module gin.

(** What a handler reads of the request: the two keys that
    [AuthMiddleware] sets from the session token on every [/api] route,
    the path parameters and the query string. *)
Record Context := {
  userID : string;
  userRole : string;
  params : gmap string string;
  queries : gmap string string
}.

Definition Param (c : Context) (k : string) : string := default "" (params c !! k).
Definition Query (c : Context) (k : string) : string := default "" (queries c !! k).

(** A user as encoded in a response: the password is tagged [json:"-"]. *)
Record UserJSON := {
  id : primitive.ObjectID;
  fullName : string;
  email : string;
  role : string;
  phone : string
}.

Definition userJSON (u : models.User) : UserJSON :=
  {| id := models.User_ID u; fullName := models.FullName u; email := models.Email u;
     role := models.Role u; phone := models.Phone u |}.

(** The bodies the handlers send.  A slice of appointments is [None] when
    it is Go's nil slice, which is encoded as [null], and [Some []] when
    it is empty, encoded as an empty array. *)
Inductive Body :=
| Error (msg : string)
| Message (msg : string)
| OneAppointment (a : models.Appointment)
| Appointments (s : option (list models.Appointment))
| OneUser (u : UserJSON)
| TokenAndUser (token : string) (u : UserJSON).

Record Response := { code : Z; body : Body }.

Definition JSON (code : Z) (body : Body) : Response := {| code := code; body := body |}.

End gin.

(** The outcome kinds of the specification and the status that carries
    each of them. *)
Inductive ErrorKind :=
| ValidationError | Unauthorized | PermissionDenied | NotFound | Conflict | Internal.

Definition kindOf (r : gin.Response) : option ErrorKind :=
  let c := gin.code r in
  if c =? http.StatusBadRequest then Some ValidationError
  else if c =? http.StatusUnauthorized then Some Unauthorized
  else if c =? http.StatusForbidden then Some PermissionDenied
  else if c =? http.StatusNotFound then Some NotFound
  else if c =? http.StatusConflict then Some Conflict
  else if c =? http.StatusInternalServerError then Some Internal
  else None.

(* ===================================================================== *)
(** ** [services]: notifications *)
(* ===================================================================== *)

Module services.

(** A message handed to the SMS gateway: the number and the three values
    the text is formatted from. *)
Record SMS := {
  to : string;
  service : string;
  patientName : string;
  startTime : time.Time
}.

(** [SendAppointmentConfirmationSMS]: nothing is sent to a patient without
    a phone number; otherwise the message is dispatched and its delivery is
    not awaited. *)
Definition SendAppointmentConfirmationSMS (patient : models.User)
    (apt : models.Appointment) : list SMS :=
  if decide (models.Phone patient = "") then []
  else [ {| to := models.Phone patient; service := models.Service apt;
            patientName := models.FullName patient;
            startTime := models.StartTime apt |} ].

End services.

(* ===================================================================== *)
(** ** [utils]: password hashing and session tokens *)
(* ===================================================================== *)

Module utils.

Record Claims := {
  UserID : string;
  Role : string;
  ExpiresAt : time.Time
}.

(** The capabilities the program takes from its libraries and from its
    configuration: bcrypt, HMAC signing, the signing secret read from the
    environment, the verification of a token (signature and expiry at the
    given instant), and the validator's e-mail format. *)
Class Crypto := {
  bcryptGenerate : string → Z → string * option error;
  bcryptCompare : string → string → bool;
  jwtSecret : string;
  signedString : string → Claims → string;
  parseWithClaims : string → string → time.Time → option Claims;
  isEmail : string → bool
}.

Section WithCrypto.
Context `{Crypto}.

Definition HashPassword (password : string) : string * option error :=
  bcryptGenerate password 14.

(** [bcryptCompare hash password] holds when comparing gives no error. *)
Definition CheckPasswordHash (password hash : string) : bool :=
  bcryptCompare hash password.

Definition GenerateJWT (now : time.Time) (userID role : string) : string * option error :=
  if (String.length jwtSecret =? 0)%nat then ("", Some "JWT_SECRET is not configured")
  else
    let expirationTime := time.Add now (24 * time.Hour) in
    let claims := {| UserID := userID; Role := role; ExpiresAt := expirationTime |} in
    (signedString jwtSecret claims, None).

Definition ValidateJWT (now : time.Time) (tokenStr : string) : option Claims :=
  if (String.length jwtSecret =? 0)%nat then None
  else parseWithClaims jwtSecret tokenStr now.

End WithCrypto.

End utils.

(* ===================================================================== *)
(** ** [middleware] *)
(* ===================================================================== *)

Module middleware.

Definition TrimPrefix (s prefix : string) : string :=
  if String.prefix prefix s
  then String.substring (String.length prefix) (String.length s - String.length prefix) s
  else s.

(** [AuthMiddleware]: either the request is aborted with a response, or
    the handler runs with the identifier and the role of the token under
    the keys [userID] and [userRole]. *)
Definition AuthMiddleware `{utils.Crypto} (now : time.Time) (authHeader : string)
    (params queries : gmap string string) : gin.Response + gin.Context :=
  if decide (authHeader = "") then
    inl (gin.JSON http.StatusUnauthorized (gin.Error "Authorization header required"))
  else
    let tokenString := TrimPrefix authHeader "Bearer " in
    match utils.ValidateJWT now tokenString with
    | None => inl (gin.JSON http.StatusUnauthorized (gin.Error "Invalid token"))
    | Some claims =>
        inr {| gin.userID := utils.UserID claims; gin.userRole := utils.Role claims;
               gin.params := params; gin.queries := queries |}
    end.

End middleware.

(* ===================================================================== *)
(** ** [handlers] *)
(* ===================================================================== *)

Module handlers.

Import gin.

(** What a request meets and does not decide: whether the [k]-th store
    operation it issues fails, whether the store has a unique index on the
    e-mail address of users, the identifier the generator yields, the wall
    clock. *)
Record Env := {
  storeFault : nat → bool;
  uniqueEmails : bool;
  NewObjectID : primitive.ObjectID;
  Now : time.Time
}.

(** What a handler leaves behind: the response, the database, and the
    messages dispatched to the SMS gateway. *)
Record Result := {
  response : Response;
  database : mongo.Database;
  dispatched : list services.SMS
}.

Definition reply (db : mongo.Database) (code : Z) (body : Body) : Result :=
  {| response := JSON code body; database := db; dispatched := [] |}.

(** The store operations as a handler sees them: a value, or an error
    ([None]).  [FindOne(...).Decode] also fails when no document matches. *)
Definition FindOne {A} `{bson.Document A} (env : Env) (k : nat)
    (filter : gmap string bson.cond) (docs : list A) : option A :=
  if storeFault env k then None else mongo.findOne filter docs.

Inductive InsertError := DuplicateKey | WriteFailure.

Definition IsDuplicateKeyError (err : InsertError) : bool :=
  match err with DuplicateKey => true | WriteFailure => false end.

Definition InsertOne {A} `{bson.Document A} (env : Env) (k : nat)
    (unique : list string) (d : A) (docs : list A) : list A + InsertError :=
  if storeFault env k then inr WriteFailure
  else
    match mongo.insertOne unique d docs with
    | Some docs' => inl docs'
    | None => inr DuplicateKey
    end.

Definition UpdateOne {A} `{bson.Document A} (env : Env) (k : nat)
    (filter : gmap string bson.cond) (fields : gmap string bson.value)
    (docs : list A) : option (list A * nat) :=
  if storeFault env k then None else Some (mongo.updateOne filter fields docs).

Definition Find {A} `{bson.Document A} (env : Env) (k : nat)
    (filter : gmap string bson.cond) (key : string) (dir : Z)
    (docs : list A) : option (list A) :=
  if storeFault env k then None else Some (mongo.sortBy key dir (mongo.find filter docs)).

Definition All {A} `{bson.Document A} (env : Env) (k : nat)
    (cursor : list A) (results : option (list A)) : option (option (list A)) :=
  if storeFault env k then None else Some (mongo.All cursor results).

Definition byID (oid : primitive.ObjectID) : gmap string bson.cond :=
  {[ "_id" := bson.Is (bson.ObjectID oid) ]}.

(** *** Appointments *)

(** The body of [POST /api/appointments]; a key absent from the JSON
    leaves the empty string. *)
Record CreateAppointmentRequest := {
  req_StartTime : string;
  req_EndTime : string;
  req_Service : string
}.

(** [CreateAppointment].  The body is [None] when [ShouldBindJSON] fails. *)
Definition CreateAppointment (env : Env) (c : Context)
    (body : option CreateAppointmentRequest) (db : mongo.Database) : Result :=
  match body with
  | None => reply db http.StatusBadRequest (Error "Invalid request body")
  | Some req =>
      match time.ParseRFC3339 (req_StartTime req), time.ParseRFC3339 (req_EndTime req) with
      | Some startTime, Some endTime =>
          if decide (userRole c ≠ "client") then
            reply db http.StatusForbidden (Error "Only clients can book appointments.")
          else
            let patientID := fst (primitive.ObjectIDFromHex (userID c)) in
            match FindOne env 0 (byID patientID) (mongo.users db) with
            | None =>
                reply db http.StatusInternalServerError (Error "Could not find user details")
            | Some patient =>
                let apt :=
                  {| models.ID := NewObjectID env;
                     models.PatientID := patientID;
                     models.PatientName := models.FullName patient;
                     models.StartTime := startTime;
                     models.EndTime := endTime;
                     models.Service := req_Service req;
                     models.Status := "Scheduled" |} in
                match InsertOne env 1 mongo.appointmentsUnique apt (mongo.appointments db) with
                | inr _ =>
                    reply db http.StatusInternalServerError
                      (Error "Failed to create appointment")
                | inl appointments =>
                    {| response := JSON http.StatusCreated (OneAppointment apt);
                       database := {| mongo.users := mongo.users db;
                                      mongo.appointments := appointments |};
                       dispatched := services.SendAppointmentConfirmationSMS patient apt |}
                end
            end
      | _, _ =>
          reply db http.StatusBadRequest (Error "Invalid time format, use RFC3339")
      end
  end.

(** The date-range part of the filter, written out in both list handlers:
    [startDate] gives the lower bound, [endDate] plus 23h59m the upper
    bound, joined to the lower bound when there is one.  A date that does
    not parse is ignored. *)
Definition filterStartDate (c : Context) (filter : gmap string bson.cond) :
    gmap string bson.cond :=
  let startDateStr := Query c "startDate" in
  if decide (startDateStr ≠ "") then
    match time.ParseDateOnly startDateStr with
    | Some startDate =>
        <[ "startTime" := bson.Ops {[ "$gte" := bson.DateTime startDate ]} ]> filter
    | None => filter
    end
  else filter.

Definition filterEndDate (c : Context) (filter : gmap string bson.cond) :
    gmap string bson.cond :=
  let endDateStr := Query c "endDate" in
  if decide (endDateStr ≠ "") then
    match time.ParseDateOnly endDateStr with
    | Some endDate =>
        let endDate := time.Add endDate (23 * time.Hour + 59 * time.Minute) in
        match filter !! "startTime" with
        | Some (bson.Ops f) =>
            <[ "startTime" := bson.Ops (<[ "$lte" := bson.DateTime endDate ]> f) ]> filter
        | _ =>
            <[ "startTime" := bson.Ops {[ "$lte" := bson.DateTime endDate ]} ]> filter
        end
    | None => filter
    end
  else filter.

Definition filterStatus (c : Context) (filter : gmap string bson.cond) :
    gmap string bson.cond :=
  let status := Query c "status" in
  if decide (status ≠ "") then <[ "status" := bson.Is (bson.String status) ]> filter
  else filter.

(** [GetAppointments], [GET /api/appointments]: ascending by start time. *)
Definition GetAppointments (env : Env) (c : Context) (db : mongo.Database) : Result :=
  let filter : gmap string bson.cond := ∅ in
  let filter := filterStartDate c filter in
  let filter := filterEndDate c filter in
  let filter := filterStatus c filter in
  match Find env 0 filter "startTime" 1 (mongo.appointments db) with
  | None =>
      reply db http.StatusInternalServerError (Error "Failed to retrieve appointments")
  | Some cursor =>
      let appointments : option (list models.Appointment) := None in
      match All env 1 cursor appointments with
      | None =>
          reply db http.StatusInternalServerError (Error "Failed to decode appointments")
      | Some appointments => reply db http.StatusOK (Appointments appointments)
      end
  end.

(** [GetAppointment], [GET /api/appointment/user/:id]: scoped by role,
    newest first. *)
Definition GetAppointment (env : Env) (c : Context) (db : mongo.Database) : Result :=
  let filter : gmap string bson.cond := ∅ in
  let scoped : option (gmap string bson.cond) :=
    if decide (userRole c = "client") then
      match primitive.ObjectIDFromHex (userID c) with
      | (_, Some _) => None
      | (patientID, None) =>
          Some (<[ "patientId" := bson.Is (bson.ObjectID patientID) ]> filter)
      end
    else Some filter in
  match scoped with
  | None => reply db http.StatusInternalServerError (Error "Invalid user ID in token")
  | Some filter =>
      let filter := filterStartDate c filter in
      let filter := filterEndDate c filter in
      let filter := filterStatus c filter in
      let filter :=
        if decide (userRole c ≠ "client") then
          let patientIDQuery := Query c "patientId" in
          if decide (patientIDQuery ≠ "") then
            match primitive.ObjectIDFromHex patientIDQuery with
            | (pID, None) => <[ "patientId" := bson.Is (bson.ObjectID pID) ]> filter
            | (_, Some _) => filter
            end
          else filter
        else filter in
      match Find env 0 filter "startTime" (-1) (mongo.appointments db) with
      | None =>
          reply db http.StatusInternalServerError (Error "Failed to retrieve appointments")
      | Some cursor =>
          let appointments : option (list models.Appointment) := None in
          match All env 1 cursor appointments with
          | None =>
              reply db http.StatusInternalServerError (Error "Failed to decode appointments")
          | Some appointments =>
              let appointments :=
                match appointments with
                | None => Some []
                | Some _ => appointments
                end in
              reply db http.StatusOK (Appointments appointments)
          end
      end
  end.

(** The body of [PUT /api/appointments/:id]: every field is a pointer,
    [None] when the key is absent. *)
Record UpdateAppointmentRequest := {
  upd_StartTime : option string;
  upd_EndTime : option string;
  upd_Service : option string;
  upd_Status : option string
}.

(** The update set of [UpdateAppointment]: a timestamp that does not parse
    is left out. *)
Definition updateFieldsOf (req : UpdateAppointmentRequest) : gmap string bson.value :=
  let updateFields : gmap string bson.value := ∅ in
  let updateFields :=
    match upd_StartTime req with
    | Some s =>
        match time.ParseRFC3339 s with
        | Some t => <[ "startTime" := bson.DateTime t ]> updateFields
        | None => updateFields
        end
    | None => updateFields
    end in
  let updateFields :=
    match upd_EndTime req with
    | Some s =>
        match time.ParseRFC3339 s with
        | Some t => <[ "endTime" := bson.DateTime t ]> updateFields
        | None => updateFields
        end
    | None => updateFields
    end in
  let updateFields :=
    match upd_Service req with
    | Some s => <[ "service" := bson.String s ]> updateFields
    | None => updateFields
    end in
  match upd_Status req with
  | Some s => <[ "status" := bson.String s ]> updateFields
  | None => updateFields
  end.

(** [UpdateAppointment]. *)
Definition UpdateAppointment (env : Env) (c : Context)
    (body : option UpdateAppointmentRequest) (db : mongo.Database) : Result :=
  if bool_decide (userRole c ≠ "dentist" ∧ userRole c ≠ "staff") then
    reply db http.StatusForbidden (Error "Permission denied.")
  else
    match primitive.ObjectIDFromHex (Param c "id") with
    | (_, Some _) => reply db http.StatusBadRequest (Error "Invalid appointment ID")
    | (appointmentID, None) =>
        match body with
        | None => reply db http.StatusBadRequest (Error "Invalid request body")
        | Some req =>
            let updateFields := updateFieldsOf req in
            if decide (size updateFields = 0%nat) then
              reply db http.StatusBadRequest (Error "No fields to update")
            else
              match UpdateOne env 0 (byID appointmentID) updateFields
                      (mongo.appointments db) with
              | None =>
                  reply db http.StatusInternalServerError
                    (Error "Failed to update appointment")
              | Some (appointments, _) =>
                  reply {| mongo.users := mongo.users db;
                           mongo.appointments := appointments |}
                    http.StatusOK (Message "Appointment updated successfully")
              end
        end
    end.

Definition withStatus (status : string) (apt : models.Appointment) : models.Appointment :=
  {| models.ID := models.ID apt;
     models.PatientID := models.PatientID apt;
     models.PatientName := models.PatientName apt;
     models.StartTime := models.StartTime apt;
     models.EndTime := models.EndTime apt;
     models.Service := models.Service apt;
     models.Status := status |}.

(** [CancelAppointment]. *)
Definition CancelAppointment (env : Env) (c : Context) (db : mongo.Database) : Result :=
  if bool_decide (userRole c ≠ "dentist" ∧ userRole c ≠ "staff") then
    reply db http.StatusForbidden (Error "Permission denied.")
  else
    match primitive.ObjectIDFromHex (Param c "id") with
    | (_, Some _) => reply db http.StatusBadRequest (Error "Invalid appointment ID")
    | (appointmentID, None) =>
        match FindOne env 0 (byID appointmentID) (mongo.appointments db) with
        | None => reply db http.StatusNotFound (Error "Appointment not found")
        | Some apt =>
            match UpdateOne env 1 (byID appointmentID)
                    {[ "status" := bson.String "Cancelled" ]} (mongo.appointments db) with
            | None =>
                reply db http.StatusInternalServerError
                  (Error "Failed to cancel appointment")
            | Some (appointments, _) =>
                {| response :=
                     JSON http.StatusOK (Message "Appointment cancelled successfully");
                   database := {| mongo.users := mongo.users db;
                                  mongo.appointments := appointments |};
                   dispatched :=
                     match FindOne env 2 (byID (models.PatientID apt)) (mongo.users db) with
                     | Some patient =>
                         let apt := withStatus "Cancelled" apt in
                         services.SendAppointmentConfirmationSMS patient apt
                     | None => []
                     end |}
            end
        end
    end.

(** *** Accounts *)

Record RegisterUserRequest := {
  reg_FullName : string;
  reg_Email : string;
  reg_Password : string;
  reg_Role : string;
  reg_Phone : string
}.

Record LoginRequest := {
  login_Email : string;
  login_Password : string
}.

(** The length the validator's [min] compares: characters, that is bytes
    that do not continue a UTF-8 sequence. *)
Definition runeCount (s : string) : nat :=
  length (List.filter
            (λ ch, let n := N_of_ascii ch in negb ((128 <=? n) && (n <? 192))%N)
            (list_ascii_of_string s)).

Section WithCrypto.
Context `{utils.Crypto}.

(** The [binding] tags of [RegisterUserRequest]: the error of the first
    field that fails, if any.  No tag constrains [Role]. *)
Definition validate (req : RegisterUserRequest) : option error :=
  if decide (reg_FullName req = "") then Some "FullName: required"
  else if decide (reg_Email req = "") then Some "Email: required"
  else if negb (utils.isEmail (reg_Email req)) then Some "Email: email"
  else if decide (reg_Password req = "") then Some "Password: required"
  else if (runeCount (reg_Password req) <? 8)%nat then Some "Password: min"
  else if decide (reg_Phone req = "") then Some "Phone: required"
  else None.

(** [RegisterUser].  The body is [inl] of the decoded request, or [inr] of
    the decoding error. *)
Definition RegisterUser (env : Env) (body : RegisterUserRequest + error)
    (db : mongo.Database) : Result :=
  let bound :=
    match body with
    | inl req => match validate req with Some err => inr err | None => inl req end
    | inr err => inr err
    end in
  match bound with
  | inr err => reply db http.StatusBadRequest (Error err)
  | inl req =>
      match utils.HashPassword (reg_Password req) with
      | (_, Some _) =>
          reply db http.StatusInternalServerError (Error "Failed to hash password")
      | (hashedPassword, None) =>
          let role := reg_Role req in
          let role := if decide (role = "") then "client" else role in
          let user :=
            {| models.User_ID := NewObjectID env;
               models.FullName := reg_FullName req;
               models.Email := reg_Email req;
               models.Password := hashedPassword;
               models.Role := role;
               models.Phone := reg_Phone req |} in
          match InsertOne env 0 (mongo.usersUnique (uniqueEmails env)) user
                  (mongo.users db) with
          | inr err =>
              if IsDuplicateKeyError err then
                reply db http.StatusConflict
                  (Error "An account with this email already exists")
              else reply db http.StatusInternalServerError (Error "Failed to create user")
          | inl users =>
              reply {| mongo.users := users;
                       mongo.appointments := mongo.appointments db |}
                http.StatusCreated (OneUser (userJSON user))
          end
      end
  end.

(** [Login]. *)
Definition Login (env : Env) (body : option LoginRequest) (db : mongo.Database) : Result :=
  match body with
  | None => reply db http.StatusBadRequest (Error "Invalid request")
  | Some loginReq =>
      match FindOne env 0
              {[ "email" := bson.Is (bson.String (login_Email loginReq)) ]}
              (mongo.users db) with
      | None => reply db http.StatusUnauthorized (Error "Invalid credentials")
      | Some user =>
          if negb (utils.CheckPasswordHash (login_Password loginReq) (models.Password user))
          then reply db http.StatusUnauthorized (Error "Invalid credentials")
          else
            match utils.GenerateJWT (Now env) (primitive.Hex (models.User_ID user))
                    (models.Role user) with
            | (_, Some _) =>
                reply db http.StatusInternalServerError (Error "Could not generate token")
            | (token, None) =>
                reply db http.StatusOK (TokenAndUser token (userJSON user))
            end
      end
  end.

End WithCrypto.

(** [GetCurrentUser]: the profile of the caller, whatever the path says.
    The key [userID] is present on every route that reaches the handler. *)
Definition GetCurrentUser (env : Env) (c : Context) (db : mongo.Database) : Result :=
  match primitive.ObjectIDFromHex (userID c) with
  | (_, Some _) => reply db http.StatusInternalServerError (Error "Invalid user ID format")
  | (uid, None) =>
      match FindOne env 0 (byID uid) (mongo.users db) with
      | None => reply db http.StatusNotFound (Error "User not found")
      | Some user => reply db http.StatusOK (OneUser (userJSON user))
      end
  end.

(** [UpdateCurrentUser]: the full name only. *)
Definition UpdateCurrentUser (env : Env) (c : Context) (body : option string)
    (db : mongo.Database) : Result :=
  let uid := fst (primitive.ObjectIDFromHex (userID c)) in
  match body with
  | None => reply db http.StatusBadRequest (Error "Invalid request body")
  | Some reqFullName =>
      let set : gmap string bson.value := ∅ in
      let set :=
        if decide (reqFullName ≠ "") then <[ "fullName" := bson.String reqFullName ]> set
        else set in
      if decide (size set = 0%nat) then
        reply db http.StatusBadRequest (Error "No update fields provided")
      else
        match UpdateOne env 0 (byID uid) set (mongo.users db) with
        | None =>
            reply db http.StatusInternalServerError (Error "Failed to update user profile")
        | Some (users, matchedCount) =>
            let db' := {| mongo.users := users;
                          mongo.appointments := mongo.appointments db |} in
            if (matchedCount =? 0)%nat then
              reply db' http.StatusNotFound (Error "User not found")
            else reply db' http.StatusOK (Message "Profile updated successfully")
        end
  end.

End handlers.

(* ===================================================================== *)
(** ** Vocabulary of the properties and sample data *)
(* ===================================================================== *)

Import handlers.

(** A booking request that passes the checks made before the role check:
    the body decodes and both timestamps are RFC3339. *)
Definition wellFormedBooking (body : option CreateAppointmentRequest) : bool :=
  match body with
  | Some req =>
      bool_decide (is_Some (time.ParseRFC3339 (req_StartTime req))) &&
      bool_decide (is_Some (time.ParseRFC3339 (req_EndTime req)))
  | None => false
  end.

(** The well-formed timestamp a request supplies, if any. *)
Definition suppliedTime (field : option string) : option time.Time :=
  field ≫= time.ParseRFC3339.

(** No field of the request can be applied. *)
Definition nothingToUpdate (req : UpdateAppointmentRequest) : Prop :=
  suppliedTime (upd_StartTime req) = None ∧
  suppliedTime (upd_EndTime req) = None ∧
  upd_Service req = None ∧
  upd_Status req = None.

(** The appointment with the applicable fields of the request. *)
Definition updated (req : UpdateAppointmentRequest) (apt : models.Appointment) :
    models.Appointment :=
  {| models.ID := models.ID apt;
     models.PatientID := models.PatientID apt;
     models.PatientName := models.PatientName apt;
     models.StartTime := default (models.StartTime apt) (suppliedTime (upd_StartTime req));
     models.EndTime := default (models.EndTime apt) (suppliedTime (upd_EndTime req));
     models.Service := default (models.Service apt) (upd_Service req);
     models.Status := default (models.Status apt) (upd_Status req) |}.

(** The request with another role. *)
Definition withRole (role : string) (req : RegisterUserRequest) : RegisterUserRequest :=
  {| reg_FullName := reg_FullName req; reg_Email := reg_Email req;
     reg_Password := reg_Password req; reg_Role := role; reg_Phone := reg_Phone req |}.

(** *** Sample data: a clinic with two patients, a dentist and two appointments *)

Module Clinic.

Definition alice : models.User :=
  {| models.User_ID := 1%N; models.FullName := "Alice Martin";
     models.Email := "alice@example.com"; models.Password := "bcrypt:wonderland1";
     models.Role := "client"; models.Phone := "+15550001" |}.

Definition bob : models.User :=
  {| models.User_ID := 2%N; models.FullName := "Bob Durand";
     models.Email := "bob@example.com"; models.Password := "bcrypt:builder42";
     models.Role := "client"; models.Phone := "" |}.

Definition drwho : models.User :=
  {| models.User_ID := 3%N; models.FullName := "Dr. Who";
     models.Email := "who@example.com"; models.Password := "bcrypt:tardis1963";
     models.Role := "dentist"; models.Phone := "+15550003" |}.

(** Bob's appointment on 2024-07-01 at 08:00 UTC. *)
Definition checkup : models.Appointment :=
  {| models.ID := 10%N; models.PatientID := 2%N; models.PatientName := "Bob Durand";
     models.StartTime := time.Date 2024 7 1 8 0 0 0;
     models.EndTime := time.Date 2024 7 1 8 30 0 0;
     models.Service := "Standard Check-up"; models.Status := "Scheduled" |}.

(** Alice's appointment on 2024-07-31 at 23:00 UTC. *)
Definition cleaning : models.Appointment :=
  {| models.ID := 11%N; models.PatientID := 1%N; models.PatientName := "Alice Martin";
     models.StartTime := time.Date 2024 7 31 23 0 0 0;
     models.EndTime := time.Date 2024 7 31 23 30 0 0;
     models.Service := "Teeth Cleaning"; models.Status := "Scheduled" |}.

(** An appointment in the last minute of 2024-07-31. *)
Definition lateXRay : models.Appointment :=
  {| models.ID := 12%N; models.PatientID := 1%N; models.PatientName := "Alice Martin";
     models.StartTime := time.Date 2024 7 31 23 59 30 0;
     models.EndTime := time.Date 2024 8 1 0 15 0 0;
     models.Service := "X-Ray"; models.Status := "Scheduled" |}.

Definition db : mongo.Database :=
  {| mongo.users := [alice; bob; drwho]; mongo.appointments := [checkup; cleaning] |}.

(** A store that serves every operation and has the index on e-mail
    addresses. *)
Definition env : Env :=
  {| storeFault := λ _, false; uniqueEmails := true; NewObjectID := 100%N;
     Now := time.Date 2024 6 15 12 0 0 0 |}.

(** The context [AuthMiddleware] builds from the session of [u]. *)
Definition session (u : models.User) (id : string) (query : list (string * string)) :
    gin.Context :=
  {| gin.userID := primitive.Hex (models.User_ID u);
     gin.userRole := models.Role u;
     gin.params := {[ "id" := id ]};
     gin.queries := list_to_map query |}.

(** A stand-in for the cryptographic capabilities, for running the
    account handlers on the sample data. *)
Definition crypto : utils.Crypto :=
  {| utils.bcryptGenerate := λ password _, ("bcrypt:" ++ password, None);
     utils.bcryptCompare := λ hash password, bool_decide (hash = "bcrypt:" ++ password);
     utils.jwtSecret := "secret";
     utils.signedString := λ secret claims,
       utils.UserID claims ++ "." ++ utils.Role claims ++ "." ++ secret;
     utils.parseWithClaims := λ _ _ _, None;
     utils.isEmail := λ s, bool_decide (s ≠ "") |}.

End Clinic.

(** The sample data of the date filter: the two appointments of the
    clinic and one in the last minute of 2024-07-31. *)
Definition julyDb : mongo.Database :=
  {| mongo.users := mongo.users Clinic.db;
     mongo.appointments := [Clinic.checkup; Clinic.cleaning; Clinic.lateXRay] |}.

Ltac only_listed :=
  let a := fresh "a" in
  let Ha := fresh "Ha" in
  let Heq := fresh "Heq" in
  intros a Ha Heq; simpl in Ha;
  repeat (apply elem_of_cons in Ha as [->|Ha]; [discriminate Heq|]);
  by apply elem_of_nil in Ha.

(** *** The routes of [main] *)

(** The routes under [/api] that reach the database, with their bodies.
    The chat route, which only relays to an outside service, is left
    out. *)
Inductive ApiRoute :=
| GET_appointments
| POST_appointments (body : option CreateAppointmentRequest)
| GET_appointment_user
| PUT_appointments (body : option UpdateAppointmentRequest)
| PATCH_appointments_cancel
| GET_user
| PUT_user (body : option string).

Definition dispatch (env : Env) (c : gin.Context) (route : ApiRoute)
    (db : mongo.Database) : Result :=
  match route with
  | GET_appointments => GetAppointments env c db
  | POST_appointments body => CreateAppointment env c body db
  | GET_appointment_user => GetAppointment env c db
  | PUT_appointments body => UpdateAppointment env c body db
  | PATCH_appointments_cancel => CancelAppointment env c db
  | GET_user => GetCurrentUser env c db
  | PUT_user body => UpdateCurrentUser env c body db
  end.

(** A request: the two public routes under [/auth], and the routes
    under [/api], which [AuthMiddleware] protects. *)
Inductive Request :=
| POST_auth_register (body : RegisterUserRequest + error)
| POST_auth_login (body : option LoginRequest)
| Api (authHeader : string) (params queries : gmap string string) (route : ApiRoute).

Definition serve `{utils.Crypto} (env : Env) (request : Request)
    (db : mongo.Database) : Result :=
  match request with
  | POST_auth_register body => RegisterUser env body db
  | POST_auth_login body => Login env body db
  | Api authHeader params queries route =>
      match middleware.AuthMiddleware (Now env) authHeader params queries with
      | inl aborted => {| response := aborted; database := db; dispatched := [] |}
      | inr c => dispatch env c route db
      end
  end.

(** The database after a sequence of requests, each with what it meets. *)
Definition serveAll `{utils.Crypto} (trace : list (Env * Request))
    (db : mongo.Database) : mongo.Database :=
  foldl (λ db '(env, request), database (serve env request db)) db trace.

Definition emptyDb : mongo.Database := {| mongo.users := []; mongo.appointments := [] |}.

(** What the store's index on [_id] and the handlers' checks keep true of
    a database.  The uniqueness of e-mail addresses is not part of it: it
    rests on an index that the program does not create. *)
Record consistent (db : mongo.Database) : Prop := {
  unique_user_ids : NoDup (models.User_ID <$> mongo.users db);
  unique_appointment_ids : NoDup (models.ID <$> mongo.appointments db);
  patients_exist :
    ∀ a, a ∈ mongo.appointments db →
         ∃ u, u ∈ mongo.users db ∧ models.User_ID u = models.PatientID a;
  users_complete :
    ∀ u, u ∈ mongo.users db →
         models.FullName u ≠ "" ∧ models.Email u ≠ "" ∧
         models.Role u ≠ "" ∧ models.Phone u ≠ ""
}.

(** The part of a user that no route changes once it is stored, and the
    part of an appointment that no route changes. *)
Definition userCore (u : models.User) :
    primitive.ObjectID * string * string * string * string :=
  (models.User_ID u, models.Email u, models.Password u, models.Role u, models.Phone u).

Definition appointmentCore (a : models.Appointment) :
    primitive.ObjectID * primitive.ObjectID * string :=
  (models.ID a, models.PatientID a, models.PatientName a).

(** An appointment is within the range and the status that the query
    string asks for; a date that does not parse asks for nothing. *)
Definition inQuery (c : gin.Context) (a : models.Appointment) : Prop :=
  (∀ startDate, time.ParseDateOnly (gin.Query c "startDate") = Some startDate →
                startDate ≤ models.StartTime a) ∧
  (∀ endDate, time.ParseDateOnly (gin.Query c "endDate") = Some endDate →
              models.StartTime a ≤ time.Add endDate (23 * time.Hour + 59 * time.Minute)) ∧
  (gin.Query c "status" ≠ "" → models.Status a = gin.Query c "status").

(** The user [u] under the name [name]. *)
Definition renamed (name : string) (u : models.User) : models.User :=
  {| models.User_ID := models.User_ID u; models.FullName := name;
     models.Email := models.Email u; models.Password := models.Password u;
     models.Role := models.Role u; models.Phone := models.Phone u |}.

(** What one request can do to the database: nothing, add a user, add an
    appointment, amend appointments in place, or rename users in place.
    The address of an added user is new only on a store with the index on
    e-mail addresses ([emailIndex]). *)
Inductive step (emailIndex : bool) (db : mongo.Database) : mongo.Database → Prop :=
| step_none : step emailIndex db db
| step_register (u : models.User) :
    (∀ u', u' ∈ mongo.users db → models.User_ID u' ≠ models.User_ID u) →
    (emailIndex = true →
     ∀ u', u' ∈ mongo.users db → models.Email u' ≠ models.Email u) →
    models.FullName u ≠ "" → models.Email u ≠ "" →
    models.Role u ≠ "" → models.Phone u ≠ "" →
    step emailIndex db {| mongo.users := app (mongo.users db) [u];
                          mongo.appointments := mongo.appointments db |}
| step_book (a : models.Appointment) (patient : models.User) :
    (∀ a', a' ∈ mongo.appointments db → models.ID a' ≠ models.ID a) →
    patient ∈ mongo.users db →
    models.User_ID patient = models.PatientID a →
    models.PatientName a = models.FullName patient →
    models.Status a = "Scheduled" →
    step emailIndex db {| mongo.users := mongo.users db;
                          mongo.appointments := app (mongo.appointments db) [a] |}
| step_amend (appointments' : list models.Appointment) :
    Forall2 (λ a a', appointmentCore a' = appointmentCore a)
      (mongo.appointments db) appointments' →
    step emailIndex db {| mongo.users := mongo.users db;
                          mongo.appointments := appointments' |}
| step_rename (users' : list models.User) :
    Forall2 (λ u u', u' = u ∨ ∃ name, name ≠ "" ∧ u' = renamed name u)
      (mongo.users db) users' →
    step emailIndex db {| mongo.users := users';
                          mongo.appointments := mongo.appointments db |}.

(** An appointment is within what the caller of
    [GET /api/appointment/user/:id] may and asks to see: a client their
    own, the others those of the patient they name, if they name one. *)
Definition inScope (c : gin.Context) (a : models.Appointment) : Prop :=
  if decide (gin.userRole c = "client")
  then models.PatientID a = (primitive.ObjectIDFromHex (gin.userID c)).1
  else ∀ pID, primitive.ObjectIDFromHex (gin.Query c "patientId") = (pID, None) →
              models.PatientID a = pID.

(** Capabilities of a server started without [JWT_SECRET]. *)
Definition unconfiguredCrypto : utils.Crypto :=
  {| utils.bcryptGenerate := λ password _, ("bcrypt:" ++ password, None);
     utils.bcryptCompare := λ hash password, bool_decide (hash = "bcrypt:" ++ password);
     utils.jwtSecret := "";
     utils.signedString := λ secret claims,
       utils.UserID claims ++ "." ++ utils.Role claims ++ "." ++ secret;
     utils.parseWithClaims := λ _ token _,
       Some {| utils.UserID := token; utils.Role := "dentist"; utils.ExpiresAt := 0 |};
     utils.isEmail := λ s, bool_decide (s ≠ "") |}.

(** The claims of the token that Mallory, registered under the identifier
    [100], gets at the instant of [Clinic.env], and capabilities whose
    verification accepts that token. *)
Definition malloryClaims : utils.Claims :=
  {| utils.UserID := primitive.Hex 100%N; utils.Role := "dentist";
     utils.ExpiresAt := time.Add (Now Clinic.env) (24 * time.Hour) |}.

Definition sessionCrypto : utils.Crypto :=
  {| utils.bcryptGenerate := utils.bcryptGenerate (Crypto := Clinic.crypto);
     utils.bcryptCompare := utils.bcryptCompare (Crypto := Clinic.crypto);
     utils.jwtSecret := "secret";
     utils.signedString := utils.signedString (Crypto := Clinic.crypto);
     utils.parseWithClaims := λ secret token now,
       if bool_decide (token = utils.signedString (Crypto := Clinic.crypto) secret malloryClaims)
       then Some malloryClaims else None;
     utils.isEmail := utils.isEmail (Crypto := Clinic.crypto) |}.

Definition mallory : RegisterUserRequest :=
  {| reg_FullName := "Mallory"; reg_Email := "m@example.com";
     reg_Password := "longenough1"; reg_Role := "dentist"; reg_Phone := "+15550009" |}.

Ltac not_listed :=
  let x := fresh "x" in
  let Hin := fresh "Hin" in
  intros x Hin; simpl in Hin;
  repeat (apply elem_of_cons in Hin as [->|Hin]; [first [discriminate | split; discriminate]|]);
  by apply elem_of_nil in Hin.

(* ===================================================================== *)
(** * Properties *)
(* ===================================================================== *)

(** ** The libraries on sample inputs *)

Example date_2024_07_01 : time.ParseDateOnly "2024-07-01" = Some 1719792000000.
Proof. reflexivity. Qed.

Example date_rejects_feb_30 : time.ParseDateOnly "2023-02-30" = None.
Proof. reflexivity. Qed.

Example rfc3339_utc :
  time.ParseRFC3339 "2024-07-01T08:00:00Z" = Some (time.Date 2024 7 1 8 0 0 0).
Proof. reflexivity. Qed.

Example rfc3339_offset :
  time.ParseRFC3339 "2024-07-01T10:30:00.250+02:30" = Some (time.Date 2024 7 1 8 0 0 250).
Proof. reflexivity. Qed.

Example rfc3339_rejects_date_only : time.ParseRFC3339 "2024-07-01" = None.
Proof. reflexivity. Qed.

Example rfc3339_one_digit_hour :
  time.ParseRFC3339 "2024-07-01T8:00:00Z" = Some (time.Date 2024 7 1 8 0 0 0).
Proof. reflexivity. Qed.

Example rfc3339_wide_offsets :
  time.ParseRFC3339 "2024-07-02T08:00:00+24:00" = Some (time.Date 2024 7 1 8 0 0 0) ∧
  time.ParseRFC3339 "2024-07-01T09:00:00+00:60" = Some (time.Date 2024 7 1 8 0 0 0) ∧
  time.ParseRFC3339 "2024-07-01T09:00:00+25:00" = None ∧
  time.ParseRFC3339 "2024-07-01T09:00:00+00:61" = None.
Proof. split_and!; reflexivity. Qed.

Example rfc3339_two_digit_fields :
  time.ParseRFC3339 "2024-7-01T08:00:00Z" = None ∧
  time.ParseRFC3339 "2024-07-01T08:5:00Z" = None ∧
  time.ParseRFC3339 "2024-07-01T08:05:7Z" = None ∧
  time.ParseRFC3339 "2024-07-01T24:00:00Z" = None ∧
  time.ParseRFC3339 "2024-07-01T08:00:60Z" = None.
Proof. split_and!; reflexivity. Qed.

Example oid_roundtrip :
  primitive.ObjectIDFromHex (primitive.Hex 3735928559%N) = (3735928559%N, None).
Proof. reflexivity. Qed.

Example oid_short : fst (primitive.ObjectIDFromHex "abc") = primitive.NilObjectID.
Proof. reflexivity. Qed.

(** ** Filters, queries and updates on a collection *)

Section Collection_facts.
Context {A : Type} `{bson.Document A}.

Lemma forallb_map_to_list {V} (p : string → V → bool) (m : gmap string V) :
  forallb (λ '(k, v), p k v) (map_to_list m) = true ↔
  ∀ k v, m !! k = Some v → p k v = true.
Proof.
  rewrite forallb_forall. split.
  - intros Hall k v Hkv.
    apply (Hall (k, v)), list_elem_of_In, elem_of_map_to_list, Hkv.
  - intros Hall [k v] Hin.
    apply Hall, elem_of_map_to_list, list_elem_of_In, Hin.
Qed.

Lemma matches_lookup (filter : gmap string bson.cond) (d : A) :
  bson.matches filter d = true ↔
  ∀ k c, filter !! k = Some c → bson.holds c (bson.field d k) = true.
Proof. unfold bson.matches. apply (forallb_map_to_list (λ k c, bson.holds c (bson.field d k))). Qed.

Lemma matches_empty (d : A) : bson.matches ∅ d = true.
Proof. apply matches_lookup. intros k c Hk. by rewrite lookup_empty in Hk. Qed.

Lemma elem_of_find filter (docs : list A) d :
  d ∈ mongo.find filter docs ↔ d ∈ docs ∧ bson.matches filter d = true.
Proof. unfold mongo.find. by rewrite !list_elem_of_In, filter_In. Qed.

Lemma find_empty_filter (docs : list A) : mongo.find ∅ docs = docs.
Proof.
  unfold mongo.find. induction docs as [|d docs IH]; [done|].
  simpl. by rewrite matches_empty, IH.
Qed.

Lemma elem_of_sortBy key dir (docs : list A) d :
  d ∈ mongo.sortBy key dir docs ↔ d ∈ docs.
Proof. unfold mongo.sortBy. by rewrite merge_sort_Permutation. Qed.

Lemma findOne_None filter (docs : list A) :
  mongo.findOne filter docs = None ↔ ∀ d, d ∈ docs → bson.matches filter d = false.
Proof.
  unfold mongo.findOne, mongo.find.
  induction docs as [|d docs IH]; simpl.
  - split; [intros _ d Hd; by apply elem_of_nil in Hd | done].
  - destruct (bson.matches filter d) eqn:Hm; simpl.
    + split; [done|]. intros Hall. specialize (Hall d (list_elem_of_here _ _)). congruence.
    + rewrite IH. split.
      * intros Hall d' Hd'. apply elem_of_cons in Hd' as [->|Hd']; auto.
      * intros Hall d' Hd'. apply Hall. by apply list_elem_of_further.
Qed.

(** The document [findOne] returns is the first that matches. *)
Lemma findOne_Some filter (docs : list A) d :
  mongo.findOne filter docs = Some d →
  ∃ before after, docs = app before (d :: after) ∧
    bson.matches filter d = true ∧
    ∀ d', d' ∈ before → bson.matches filter d' = false.
Proof.
  unfold mongo.findOne, mongo.find.
  induction docs as [|d0 docs IH]; simpl; [done|].
  destruct (bson.matches filter d0) eqn:Hm; simpl.
  - intros [= ->]. exists [], docs. split_and!; [done|done|].
    intros d' Hd'. by apply elem_of_nil in Hd'.
  - intros Hfind. destruct (IH Hfind) as (before & after & -> & Hd & Hbefore).
    exists (d0 :: before), after. split_and!; [done|done|].
    intros d' Hd'. apply elem_of_cons in Hd' as [->|Hd']; auto.
Qed.

Lemma updateOne_none filter fields (docs : list A) :
  (∀ d, d ∈ docs → bson.matches filter d = false) →
  mongo.updateOne filter fields docs = (docs, 0%nat).
Proof.
  induction docs as [|d docs IH]; simpl; [done|]. intros Hall.
  rewrite (Hall d (list_elem_of_here _ _)), IH; [done|].
  intros d' Hd'. apply Hall. by apply list_elem_of_further.
Qed.

Lemma updateOne_first filter fields (before after : list A) d :
  (∀ d', d' ∈ before → bson.matches filter d' = false) →
  bson.matches filter d = true →
  mongo.updateOne filter fields (app before (d :: after)) =
    (app before (bson.set fields d :: after), 1%nat).
Proof.
  intros Hbefore Hd. induction before as [|d0 before IH]; simpl.
  - by rewrite Hd.
  - rewrite (Hbefore d0 (list_elem_of_here _ _)), IH; [done|].
    intros d' Hd'. apply Hbefore. by apply list_elem_of_further.
Qed.

End Collection_facts.

Lemma matches_byID_appointment oid (a : models.Appointment) :
  bson.matches (byID oid) a = true ↔ models.ID a = oid.
Proof.
  rewrite matches_lookup. unfold byID. split.
  - intros Hall. specialize (Hall "_id" _ (lookup_singleton_eq _ _)).
    simpl in Hall. apply bool_decide_eq_true in Hall. congruence.
  - intros <- k c Hk. apply lookup_singleton_Some in Hk as [<- <-].
    simpl. by apply bool_decide_eq_true.
Qed.

Lemma insertOne_fresh_appointment (apt : models.Appointment) docs :
  (∀ a, a ∈ docs → models.ID a ≠ models.ID apt) →
  mongo.insertOne mongo.appointmentsUnique apt docs = Some (app docs [apt]).
Proof.
  intros Hfresh. unfold mongo.insertOne.
  replace (mongo.duplicateKey mongo.appointmentsUnique apt docs) with false; [done|].
  symmetry. apply not_true_is_false. unfold mongo.duplicateKey.
  rewrite existsb_exists. intros (a & Ha & Hdup).
  apply list_elem_of_In, Hfresh in Ha. apply Ha.
  simpl in Hdup. rewrite orb_false_r in Hdup.
  apply bool_decide_eq_true in Hdup. congruence.
Qed.

(** ** Booking *)

(** C2.  A client whose timestamps are well-formed RFC3339 and whose user
    record the store returns gets back, and finds persisted, an appointment
    whose patient identifier is the identifier of the session, whose status
    is "Scheduled" and whose patient name is the name of the looked-up
    record.  The store is taken to serve the lookup and the insertion, and
    the generated identifier to be unused. *)
Theorem CreateAppointment_books_for_caller
    env c req db startTime endTime patientID patient :
  gin.userRole c = "client" →
  time.ParseRFC3339 (req_StartTime req) = Some startTime →
  time.ParseRFC3339 (req_EndTime req) = Some endTime →
  primitive.ObjectIDFromHex (gin.userID c) = (patientID, None) →
  mongo.findOne (byID patientID) (mongo.users db) = Some patient →
  storeFault env 0 = false →
  storeFault env 1 = false →
  (∀ a, a ∈ mongo.appointments db → models.ID a ≠ NewObjectID env) →
  let r := CreateAppointment env c (Some req) db in
  ∃ apt,
    response r = gin.JSON http.StatusCreated (gin.OneAppointment apt) ∧
    mongo.appointments (database r) = app (mongo.appointments db) [apt] ∧
    mongo.users (database r) = mongo.users db ∧
    models.PatientID apt = patientID ∧
    models.Status apt = "Scheduled" ∧
    models.PatientName apt = models.FullName patient ∧
    models.StartTime apt = startTime ∧
    models.EndTime apt = endTime ∧
    models.Service apt = req_Service req.
Proof.
  intros Hrole Hstart Hend Hid Hpatient Hf0 Hf1 Hfresh r. subst r.
  unfold CreateAppointment. rewrite Hstart, Hend.
  destruct (decide (gin.userRole c ≠ "client")) as [Hne|_]; [done|].
  unfold FindOne, InsertOne. rewrite Hf0, Hf1, Hid. simpl fst. rewrite Hpatient.
  rewrite insertOne_fresh_appointment by (intros a Ha; by apply Hfresh).
  eexists. simpl. split_and!; reflexivity.
Qed.

Lemma CreateAppointment_books_for_caller_witness :
  ∃ apt,
    response (CreateAppointment Clinic.env (Clinic.session Clinic.alice "" [])
                (Some {| req_StartTime := "2024-08-01T10:00:00Z";
                         req_EndTime := "2024-08-01T10:30:00+00:00";
                         req_Service := "Filling" |}) Clinic.db)
      = gin.JSON http.StatusCreated (gin.OneAppointment apt) ∧
    models.PatientID apt = 1%N ∧
    models.PatientName apt = "Alice Martin" ∧
    models.Status apt = "Scheduled".
Proof.
  destruct (CreateAppointment_books_for_caller
              Clinic.env (Clinic.session Clinic.alice "" [])
              {| req_StartTime := "2024-08-01T10:00:00Z";
                 req_EndTime := "2024-08-01T10:30:00+00:00";
                 req_Service := "Filling" |}
              Clinic.db (time.Date 2024 8 1 10 0 0 0) (time.Date 2024 8 1 10 30 0 0)
              1%N Clinic.alice)
    as (apt & Hresp & _ & _ & Hpid & Hstatus & Hname & _);
    [reflexivity | reflexivity | reflexivity | reflexivity | reflexivity
    | reflexivity | reflexivity | | ].
  - intros a Ha Heq. simpl in Ha.
    apply elem_of_cons in Ha as [->|Ha]; [discriminate Heq|].
    apply elem_of_cons in Ha as [->|Ha]; [discriminate Heq|].
    by apply elem_of_nil in Ha.
  - exists apt. split_and!; assumption.
Defined.

(** C3, as stated, fails: a dentist whose start time is not RFC3339 is
    answered with a validation error, not with a permission error. *)
Lemma CreateAppointment_dentist_malformed_time :
  gin.userRole (Clinic.session Clinic.drwho "" []) ≠ "client" ∧
  kindOf (response (CreateAppointment Clinic.env (Clinic.session Clinic.drwho "" [])
                      (Some {| req_StartTime := "tomorrow at nine";
                               req_EndTime := "2024-08-01T10:30:00Z";
                               req_Service := "Filling" |}) Clinic.db))
    = Some ValidationError ∧
  kindOf (response (CreateAppointment Clinic.env (Clinic.session Clinic.drwho "" [])
                      (Some {| req_StartTime := "tomorrow at nine";
                               req_EndTime := "2024-08-01T10:30:00Z";
                               req_Service := "Filling" |}) Clinic.db))
    ≠ Some PermissionDenied.
Proof. split_and!; [discriminate | reflexivity | discriminate]. Qed.

(** C3, amended.  A caller who is not a client never books: the database
    is left as it was, nothing is dispatched, and the response depends
    neither on the database nor on the store, which is not consulted.  The
    failure is a permission error when the request is well formed and a
    validation error otherwise, the body and the timestamps being checked
    before the role. *)
Theorem CreateAppointment_refuses_non_clients env c body db :
  gin.userRole c ≠ "client" →
  let r := CreateAppointment env c body db in
  database r = db ∧
  dispatched r = [] ∧
  (∀ env' db', response (CreateAppointment env' c body db') = response r) ∧
  kindOf (response r) =
    Some (if wellFormedBooking body then PermissionDenied else ValidationError).
Proof.
  intros Hrole r. subst r. unfold CreateAppointment, wellFormedBooking.
  destruct body as [req|]; [|by split_and!].
  destruct (time.ParseRFC3339 (req_StartTime req)) as [startTime|],
    (time.ParseRFC3339 (req_EndTime req)) as [endTime|];
    try (split_and!; [done|done|done|];
         rewrite ?andb_false_r; simpl;
         repeat (rewrite bool_decide_eq_false_2 by (by intros [? ?])); done).
  destruct (decide (gin.userRole c ≠ "client")) as [_|Hclient]; [|done].
  split_and!; [done|done|done|].
  by rewrite !bool_decide_eq_true_2 by eauto.
Qed.

Lemma CreateAppointment_refuses_non_clients_witness :
  kindOf (response (CreateAppointment Clinic.env (Clinic.session Clinic.drwho "" [])
                      (Some {| req_StartTime := "2024-08-01T10:00:00Z";
                               req_EndTime := "2024-08-01T10:30:00Z";
                               req_Service := "Filling" |}) Clinic.db))
    = Some PermissionDenied ∧
  database (CreateAppointment Clinic.env (Clinic.session Clinic.drwho "" [])
              (Some {| req_StartTime := "2024-08-01T10:00:00Z";
                       req_EndTime := "2024-08-01T10:30:00Z";
                       req_Service := "Filling" |}) Clinic.db) = Clinic.db ∧
  kindOf (response (CreateAppointment Clinic.env (Clinic.session Clinic.drwho "" [])
                      (Some {| req_StartTime := "2024-08-01T9:00:00Z";
                               req_EndTime := "2024-08-01T10:30:00+24:00";
                               req_Service := "Filling" |}) Clinic.db))
    = Some PermissionDenied.
Proof.
  destruct (CreateAppointment_refuses_non_clients
              Clinic.env (Clinic.session Clinic.drwho "" [])
              (Some {| req_StartTime := "2024-08-01T10:00:00Z";
                       req_EndTime := "2024-08-01T10:30:00Z";
                       req_Service := "Filling" |}) Clinic.db)
    as (Hdb & _ & _ & Hkind); [discriminate|].
  destruct (CreateAppointment_refuses_non_clients
              Clinic.env (Clinic.session Clinic.drwho "" [])
              (Some {| req_StartTime := "2024-08-01T9:00:00Z";
                       req_EndTime := "2024-08-01T10:30:00+24:00";
                       req_Service := "Filling" |}) Clinic.db)
    as (_ & _ & _ & Hkind'); [discriminate|].
  split_and!; [exact Hkind | exact Hdb | exact Hkind'].
Defined.

(** ** Listing *)

Lemma filterStartDate_lookup_ne c filter k :
  k ≠ "startTime" → filterStartDate c filter !! k = filter !! k.
Proof.
  intros Hk. unfold filterStartDate.
  destruct (decide _); [|done].
  destruct (time.ParseDateOnly _); [|done].
  by rewrite lookup_insert_ne.
Qed.

Lemma filterEndDate_lookup_ne c filter k :
  k ≠ "startTime" → filterEndDate c filter !! k = filter !! k.
Proof.
  intros Hk. unfold filterEndDate.
  destruct (decide _); [|done].
  destruct (time.ParseDateOnly _); [|done].
  destruct (filter !! "startTime") as [[?|?]|]; by rewrite lookup_insert_ne.
Qed.

Lemma filterStatus_lookup_ne c filter k :
  k ≠ "status" → filterStatus c filter !! k = filter !! k.
Proof.
  intros Hk. unfold filterStatus.
  destruct (decide _); [|done]. by rewrite lookup_insert_ne.
Qed.

(** What the two list handlers make of a query: the documents of the
    cursor, which all match the filter. *)
Lemma listing_elem env filter key dir (docs : list models.Appointment) cursor s l a :
  Find env 0 filter key dir docs = Some cursor →
  All env 1 cursor None = Some s →
  match s with None => Some [] | Some _ => s end = Some l →
  a ∈ l → a ∈ docs ∧ bson.matches filter a = true.
Proof.
  unfold Find, All. destruct (storeFault env 0); [done|].
  destruct (storeFault env 1); [done|].
  intros [= <-] [= <-] Hl Ha. apply elem_of_find, (elem_of_sortBy key dir).
  unfold mongo.All in Hl.
  destruct (mongo.sortBy key dir (mongo.find filter docs)) eqn:Hsorted.
  - injection Hl as <-. by apply elem_of_nil in Ha.
  - by injection Hl as <-.
Qed.

Lemma GetAppointment_client_scoped env c db s a :
  gin.userRole c = "client" →
  response (GetAppointment env c db) = gin.JSON http.StatusOK (gin.Appointments s) →
  ∃ l, s = Some l ∧
    (a ∈ l → a ∈ mongo.appointments db ∧
             models.PatientID a = fst (primitive.ObjectIDFromHex (gin.userID c))).
Proof.
  intros Hrole. unfold GetAppointment.
  destruct (decide (gin.userRole c = "client")) as [_|?]; [|done].
  destruct (primitive.ObjectIDFromHex (gin.userID c)) as [patientID [err|]]; [done|].
  destruct (decide (gin.userRole c ≠ "client")) as [?|_]; [done|].
  destruct (Find _ _ _ _ _ _) as [cursor|] eqn:Hfind; [|done].
  destruct (All _ _ _ _) as [s'|] eqn:Hall; [|done].
  intros [= <-].
  destruct s' as [l|]; (eexists; split; [reflexivity|]); intros Ha.
  - destruct (listing_elem _ _ _ _ _ _ _ l a Hfind Hall eq_refl Ha) as [Hin Hm].
    split; [done|].
    rewrite matches_lookup in Hm.
    specialize (Hm "patientId" (bson.Is (bson.ObjectID patientID))).
    rewrite filterStatus_lookup_ne, filterEndDate_lookup_ne,
      filterStartDate_lookup_ne, lookup_insert_eq in Hm by done.
    specialize (Hm eq_refl). simpl in Hm.
    apply bool_decide_eq_true in Hm. by injection Hm.
  - by apply elem_of_nil in Ha.
Qed.

Lemma GetAppointments_listed env c db l a :
  response (GetAppointments env c db) = gin.JSON http.StatusOK (gin.Appointments (Some l)) →
  a ∈ l →
  a ∈ mongo.appointments db ∧
  bson.matches (filterStatus c (filterEndDate c (filterStartDate c ∅))) a = true.
Proof.
  unfold GetAppointments.
  destruct (Find _ _ _ _ _ _) as [cursor|] eqn:Hfind; [|done].
  destruct (All _ _ _ _) as [s'|] eqn:Hall; [|done].
  intros [= ->] Ha. by eapply listing_elem.
Qed.

Lemma GetAppointment_listed env c db s :
  response (GetAppointment env c db) = gin.JSON http.StatusOK (gin.Appointments s) →
  ∃ l, s = Some l ∧ ∀ a, a ∈ l → a ∈ mongo.appointments db.
Proof.
  unfold GetAppointment.
  destruct (if decide (gin.userRole c = "client") then _ else _) as [filter|]; [|done].
  destruct (Find _ _ _ _ _ _) as [cursor|] eqn:Hfind; [|done].
  destruct (All _ _ _ _) as [s'|] eqn:Hall; [|done].
  intros [= <-].
  destruct s' as [l|]; (eexists; split; [reflexivity|]); intros a Ha.
  - by eapply listing_elem.
  - by apply elem_of_nil in Ha.
Qed.

Lemma holds_ops_lookup ops op v x :
  bson.holds (bson.Ops ops) (Some x) = true → ops !! op = Some v →
  bson.holdsOp op v x = true.
Proof.
  simpl. intros Hall Hop.
  by apply (forallb_map_to_list (λ op v, bson.holdsOp op v x) ops).
Qed.

(** The upper bound the list handlers derive from [endDate]: the start of
    the day plus 23 hours and 59 minutes. *)
Lemma filterEndDate_upper c filter endDate :
  time.ParseDateOnly (gin.Query c "endDate") = Some endDate →
  ∃ ops, filterEndDate c filter !! "startTime" = Some (bson.Ops ops) ∧
    ops !! "$lte" =
      Some (bson.DateTime (time.Add endDate (23 * time.Hour + 59 * time.Minute))).
Proof.
  intros Hparse. unfold filterEndDate.
  destruct (decide (gin.Query c "endDate" ≠ "")) as [_|Hempty].
  - rewrite Hparse.
    destruct (filter !! "startTime") as [[?|f]|];
      eexists; rewrite lookup_insert_eq; split; try reflexivity;
      by rewrite ?lookup_insert_eq, ?lookup_singleton_eq.
  - apply dec_stable in Hempty. rewrite Hempty in Hparse. discriminate.
Qed.

Lemma GetAppointments_endDate_bound env c db l a endDate :
  time.ParseDateOnly (gin.Query c "endDate") = Some endDate →
  response (GetAppointments env c db) = gin.JSON http.StatusOK (gin.Appointments (Some l)) →
  a ∈ l →
  models.StartTime a ≤ time.Add endDate (23 * time.Hour + 59 * time.Minute).
Proof.
  intros Hparse Hresp Ha.
  destruct (GetAppointments_listed _ _ _ _ _ Hresp Ha) as [_ Hm].
  destruct (filterEndDate_upper c (filterStartDate c ∅) _ Hparse) as (ops & Hops & Hlte).
  rewrite matches_lookup in Hm. specialize (Hm "startTime" (bson.Ops ops)).
  rewrite filterStatus_lookup_ne in Hm by done. specialize (Hm Hops).
  apply (holds_ops_lookup _ _ _ _ Hm) in Hlte. simpl in Hlte.
  by apply Z.leb_le.
Qed.

Lemma GetAppointments_unfiltered env c db a :
  gin.queries c = ∅ → storeFault env 0 = false → storeFault env 1 = false →
  a ∈ mongo.appointments db →
  ∃ l, response (GetAppointments env c db)
         = gin.JSON http.StatusOK (gin.Appointments (Some l)) ∧ a ∈ l.
Proof.
  intros Hq Hf0 Hf1 Ha. unfold GetAppointments, Find, All.
  rewrite Hf0, Hf1.
  unfold filterStartDate, filterEndDate, filterStatus, gin.Query.
  rewrite Hq, !lookup_empty. simpl.
  rewrite find_empty_filter.
  assert (Hs : a ∈ mongo.sortBy "startTime" 1 (mongo.appointments db))
    by by apply elem_of_sortBy.
  unfold mongo.All.
  destruct (mongo.sortBy "startTime" 1 (mongo.appointments db)) as [|a0 l] eqn:Hsorted.
  - by apply elem_of_nil in Hs.
  - by eexists.
Qed.

Lemma GetAppointment_never_null env c db :
  response (GetAppointment env c db) ≠ gin.JSON http.StatusOK (gin.Appointments None).
Proof.
  intros Hresp. by destruct (GetAppointment_listed env c db None Hresp) as (l & ? & _).
Qed.

(** C1.  The handler of [GET /api/appointment/user/:id] scopes a client to
    their own appointments ([GetAppointment_client_scoped]); the handler
    of [GET /api/appointments] does not: Alice, a client, is shown Bob's
    check-up, whatever patient filter she supplies. *)
Theorem GetAppointments_client_sees_other_patients :
  gin.userRole (Clinic.session Clinic.alice "" []) = "client" ∧
  fst (primitive.ObjectIDFromHex (gin.userID (Clinic.session Clinic.alice "" []))) = 1%N ∧
  response (GetAppointments Clinic.env (Clinic.session Clinic.alice "" []) Clinic.db)
    = gin.JSON http.StatusOK (gin.Appointments (Some [Clinic.checkup; Clinic.cleaning])) ∧
  response (GetAppointments Clinic.env
              (Clinic.session Clinic.alice "" [("patientId", primitive.Hex 1%N)])
              Clinic.db)
    = gin.JSON http.StatusOK (gin.Appointments (Some [Clinic.checkup; Clinic.cleaning])) ∧
  models.PatientID Clinic.checkup = 2%N ∧
  response (GetAppointment Clinic.env (Clinic.session Clinic.alice "" []) Clinic.db)
    = gin.JSON http.StatusOK (gin.Appointments (Some [Clinic.cleaning])).
Proof. split_and!; reflexivity. Qed.

(** The part of C6 that holds: both appointments of the example are listed
    for July, and the first is not listed from 2024-07-02 on; the lower
    bound is midnight of [startDate]. *)
Lemma date_filter_examples :
  response (GetAppointments Clinic.env
              (Clinic.session Clinic.drwho ""
                 [("startDate", "2024-07-01"); ("endDate", "2024-07-31")]) Clinic.db)
    = gin.JSON http.StatusOK (gin.Appointments (Some [Clinic.checkup; Clinic.cleaning])) ∧
  response (GetAppointment Clinic.env
              (Clinic.session Clinic.drwho ""
                 [("startDate", "2024-07-01"); ("endDate", "2024-07-31")]) Clinic.db)
    = gin.JSON http.StatusOK (gin.Appointments (Some [Clinic.cleaning; Clinic.checkup])) ∧
  response (GetAppointments Clinic.env
              (Clinic.session Clinic.drwho "" [("startDate", "2024-07-02")]) Clinic.db)
    = gin.JSON http.StatusOK (gin.Appointments (Some [Clinic.cleaning])) ∧
  response (GetAppointment Clinic.env
              (Clinic.session Clinic.drwho "" [("startDate", "2024-07-02")]) Clinic.db)
    = gin.JSON http.StatusOK (gin.Appointments (Some [Clinic.cleaning])).
Proof. split_and!; reflexivity. Qed.

(** C6.  The end of the range is 23:59:00 of [endDate], not 23:59:59: an
    appointment that starts at 23:59:30 on 2024-07-31 is on that day and is
    left out of the list for [endDate=2024-07-31], by both handlers. *)
Theorem endDate_misses_last_minute :
  time.ParseRFC3339 "2024-07-31T23:59:30Z" = Some (models.StartTime Clinic.lateXRay) ∧
  time.Date 2024 7 31 0 0 0 0 ≤ models.StartTime Clinic.lateXRay ∧
  models.StartTime Clinic.lateXRay ≤ time.Date 2024 7 31 23 59 59 0 ∧
  Clinic.lateXRay ∈ mongo.appointments julyDb ∧
  response (GetAppointments Clinic.env
              (Clinic.session Clinic.drwho "" [("endDate", "2024-07-31")]) julyDb)
    = gin.JSON http.StatusOK (gin.Appointments (Some [Clinic.checkup; Clinic.cleaning])) ∧
  response (GetAppointment Clinic.env
              (Clinic.session Clinic.drwho "" [("endDate", "2024-07-31")]) julyDb)
    = gin.JSON http.StatusOK (gin.Appointments (Some [Clinic.cleaning; Clinic.checkup])) ∧
  time.Add (time.Date 2024 7 31 0 0 0 0) (23 * time.Hour + 59 * time.Minute)
    = time.Date 2024 7 31 23 59 0 0.
Proof.
  split_and!; try reflexivity; try (by vm_compute).
  unfold julyDb. simpl. set_solver.
Qed.

(** C8.  The handler of [GET /api/appointment/user/:id] replaces a nil
    slice by an empty one ([GetAppointment_never_null]); the handler of
    [GET /api/appointments] sends the nil slice, that is [null], when
    nothing matches. *)
Theorem GetAppointments_null_when_nothing_matches :
  mongo.find (filterStatus (Clinic.session Clinic.drwho "" [("status", "Completed")]) ∅)
    (mongo.appointments Clinic.db) = [] ∧
  response (GetAppointments Clinic.env
              (Clinic.session Clinic.drwho "" [("status", "Completed")]) Clinic.db)
    = gin.JSON http.StatusOK (gin.Appointments None) ∧
  response (GetAppointment Clinic.env
              (Clinic.session Clinic.drwho "" [("status", "Completed")]) Clinic.db)
    = gin.JSON http.StatusOK (gin.Appointments (Some [])).
Proof. split_and!; reflexivity. Qed.

(** ** Updating *)

Lemma updateFieldsOf_lookup req :
  updateFieldsOf req !! "startTime" = bson.DateTime <$> suppliedTime (upd_StartTime req) ∧
  updateFieldsOf req !! "endTime" = bson.DateTime <$> suppliedTime (upd_EndTime req) ∧
  updateFieldsOf req !! "service" = bson.String <$> upd_Service req ∧
  updateFieldsOf req !! "status" = bson.String <$> upd_Status req ∧
  updateFieldsOf req !! "patientName" = None.
Proof.
  unfold updateFieldsOf, suppliedTime.
  destruct (upd_StartTime req) as [s|]; simpl;
    [destruct (time.ParseRFC3339 s)|];
    (destruct (upd_EndTime req) as [e|]; simpl;
       [destruct (time.ParseRFC3339 e)|]);
    destruct (upd_Service req), (upd_Status req); simpl;
    split_and!; by simplify_map_eq.
Qed.

Lemma updateFieldsOf_empty req :
  size (updateFieldsOf req) = 0%nat ↔ nothingToUpdate req.
Proof.
  rewrite map_size_empty_iff. unfold nothingToUpdate. split.
  - intros Hempty.
    destruct (updateFieldsOf_lookup req) as (H1 & H2 & H3 & H4 & _).
    rewrite Hempty, lookup_empty in H1, H2, H3, H4.
    split_and!.
    + by destruct (suppliedTime (upd_StartTime req)).
    + by destruct (suppliedTime (upd_EndTime req)).
    + by destruct (upd_Service req).
    + by destruct (upd_Status req).
  - intros (H1 & H2 & H3 & H4). apply map_eq. intros k.
    unfold updateFieldsOf, suppliedTime in *. rewrite H3, H4.
    destruct (upd_StartTime req) as [s|]; simpl in H1; rewrite ?H1;
      destruct (upd_EndTime req) as [e|]; simpl in H2; rewrite ?H2; done.
Qed.

Lemma set_updateFieldsOf req apt :
  bson.set (updateFieldsOf req) apt = updated req apt.
Proof.
  destruct (updateFieldsOf_lookup req) as (H1 & H2 & H3 & H4 & H5).
  simpl. unfold updated, models.orString, models.orTime.
  rewrite H1, H2, H3, H4, H5.
  by destruct (suppliedTime (upd_StartTime req)), (suppliedTime (upd_EndTime req)),
    (upd_Service req), (upd_Status req).
Qed.

Lemma not_staffOnly c :
  gin.userRole c = "dentist" ∨ gin.userRole c = "staff" →
  bool_decide (gin.userRole c ≠ "dentist" ∧ gin.userRole c ≠ "staff") = false.
Proof. intros Hrole. apply bool_decide_eq_false_2. intros [? ?]. by destruct Hrole. Qed.

Lemma no_match_byID oid (docs : list models.Appointment) :
  (∀ a, a ∈ docs → models.ID a ≠ oid) →
  ∀ a, a ∈ docs → bson.matches (byID oid) a = false.
Proof.
  intros Hall a Ha. apply not_true_is_false.
  rewrite matches_byID_appointment. by apply Hall.
Qed.

(** C4.  For a dentist or a member of staff and a well-formed identifier:
    a request none of whose fields can be applied is refused as invalid and
    changes nothing; any other request, when the store serves the update,
    replaces the appointment of that identifier by the same appointment
    with the supplied service, status and well-formed timestamps, a
    malformed timestamp being ignored, and leaves every other field and
    every other appointment as it was. *)
Theorem UpdateAppointment_applies_supplied_fields env c req db appointmentID :
  gin.userRole c = "dentist" ∨ gin.userRole c = "staff" →
  primitive.ObjectIDFromHex (gin.Param c "id") = (appointmentID, None) →
  let r := UpdateAppointment env c (Some req) db in
  (nothingToUpdate req →
     kindOf (response r) = Some ValidationError ∧ database r = db ∧ dispatched r = []) ∧
  (¬ nothingToUpdate req → storeFault env 0 = false →
     ∀ before apt after,
       mongo.appointments db = app before (apt :: after) →
       models.ID apt = appointmentID →
       (∀ a, a ∈ before → models.ID a ≠ appointmentID) →
       response r = gin.JSON http.StatusOK (gin.Message "Appointment updated successfully") ∧
       database r = {| mongo.users := mongo.users db;
                       mongo.appointments := app before (updated req apt :: after) |}).
Proof.
  intros Hrole Hid r. subst r. unfold UpdateAppointment.
  rewrite (not_staffOnly _ Hrole), Hid. split.
  - intros Hnone. apply updateFieldsOf_empty in Hnone.
    by destruct (decide (size (updateFieldsOf req) = 0%nat)).
  - intros Hsome Hf0 before apt after Hdocs Hapt Hbefore.
    destruct (decide (size (updateFieldsOf req) = 0%nat)) as [Hempty|_];
      [by apply updateFieldsOf_empty in Hempty|].
    unfold UpdateOne. rewrite Hf0, Hdocs.
    rewrite updateOne_first, set_updateFieldsOf; [done| |].
    + by apply no_match_byID.
    + by apply matches_byID_appointment.
Qed.

(** C10.  An update that names a well-formed identifier that no stored
    appointment carries, with at least one applicable field, is reported as
    a success although nothing is changed. *)
Theorem UpdateAppointment_missing_reports_success env c req db appointmentID :
  gin.userRole c = "dentist" ∨ gin.userRole c = "staff" →
  primitive.ObjectIDFromHex (gin.Param c "id") = (appointmentID, None) →
  ¬ nothingToUpdate req →
  storeFault env 0 = false →
  (∀ a, a ∈ mongo.appointments db → models.ID a ≠ appointmentID) →
  let r := UpdateAppointment env c (Some req) db in
  response r = gin.JSON http.StatusOK (gin.Message "Appointment updated successfully") ∧
  kindOf (response r) = None ∧
  database r = db ∧
  dispatched r = [].
Proof.
  intros Hrole Hid Hsome Hf0 Hmissing r. subst r. unfold UpdateAppointment.
  rewrite (not_staffOnly _ Hrole), Hid.
  destruct (decide (size (updateFieldsOf req) = 0%nat)) as [Hempty|_];
    [by apply updateFieldsOf_empty in Hempty|].
  unfold UpdateOne. rewrite Hf0, updateOne_none by by apply no_match_byID.
  by destruct db.
Qed.

(** ** Cancelling *)

Lemma set_status_cancelled apt :
  bson.set {[ "status" := bson.String "Cancelled" ]} apt = withStatus "Cancelled" apt.
Proof. reflexivity. Qed.

Lemma elem_of_middle_unique (before after : list models.Appointment) apt new oid a :
  models.ID apt = oid →
  (∀ a, a ∈ before → models.ID a ≠ oid) →
  (∀ a, a ∈ after → models.ID a ≠ oid) →
  a ∈ app before (new :: after) → models.ID a = oid → a = new.
Proof.
  intros Hapt Hbefore Hafter Ha Hid.
  apply elem_of_app in Ha as [Ha|Ha]; [by apply Hbefore in Ha|].
  apply elem_of_cons in Ha as [->|Ha]; [done|]. by apply Hafter in Ha.
Qed.

(** C5.  For a dentist or a member of staff and a well-formed identifier:
    when no appointment carries the identifier the answer is NotFound and
    nothing changes; when one does, and the store serves the lookup and the
    update, the appointment is kept in place with the status "Cancelled"
    and all its other fields, every other appointment and every user are
    untouched, any later list shows the appointment of that identifier only
    as cancelled, and the unfiltered list shows it. *)
Theorem CancelAppointment_marks_cancelled env c db appointmentID :
  gin.userRole c = "dentist" ∨ gin.userRole c = "staff" →
  primitive.ObjectIDFromHex (gin.Param c "id") = (appointmentID, None) →
  let r := CancelAppointment env c db in
  ((∀ a, a ∈ mongo.appointments db → models.ID a ≠ appointmentID) →
     kindOf (response r) = Some NotFound ∧ database r = db ∧ dispatched r = []) ∧
  (∀ before apt after,
     mongo.appointments db = app before (apt :: after) →
     models.ID apt = appointmentID →
     (∀ a, a ∈ before → models.ID a ≠ appointmentID) →
     (∀ a, a ∈ after → models.ID a ≠ appointmentID) →
     storeFault env 0 = false → storeFault env 1 = false →
     response r = gin.JSON http.StatusOK (gin.Message "Appointment cancelled successfully") ∧
     database r = {| mongo.users := mongo.users db;
                     mongo.appointments :=
                       app before (withStatus "Cancelled" apt :: after) |} ∧
     (∀ env' c' l a,
        response (GetAppointments env' c' (database r))
          = gin.JSON http.StatusOK (gin.Appointments (Some l)) →
        a ∈ l → models.ID a = appointmentID → a = withStatus "Cancelled" apt) ∧
     (∀ env' c' l a,
        response (GetAppointment env' c' (database r))
          = gin.JSON http.StatusOK (gin.Appointments (Some l)) →
        a ∈ l → models.ID a = appointmentID → a = withStatus "Cancelled" apt) ∧
     (∀ env' c',
        gin.queries c' = ∅ → storeFault env' 0 = false → storeFault env' 1 = false →
        ∃ l, response (GetAppointments env' c' (database r))
               = gin.JSON http.StatusOK (gin.Appointments (Some l)) ∧
             withStatus "Cancelled" apt ∈ l)).
Proof.
  intros Hrole Hid r. subst r. unfold CancelAppointment.
  rewrite (not_staffOnly _ Hrole), Hid. split.
  - intros Hmissing. unfold FindOne.
    destruct (storeFault env 0); [done|].
    by rewrite (proj2 (findOne_None _ _) (no_match_byID _ _ Hmissing)).
  - intros before apt after Hdocs Hapt Hbefore Hafter Hf0 Hf1.
    assert (Hfound : FindOne env 0 (byID appointmentID) (mongo.appointments db) = Some apt).
    { unfold FindOne. rewrite Hf0.
      destruct (mongo.findOne (byID appointmentID) (mongo.appointments db)) as [apt'|] eqn:Hfind.
      - destruct (findOne_Some _ _ _ Hfind) as (before' & after' & Hdocs' & Hm & Hbefore').
        apply matches_byID_appointment in Hm.
        assert (Hin : apt' ∈ app before (apt :: after)).
        { rewrite <- Hdocs, Hdocs'. apply elem_of_app. right. apply list_elem_of_here. }
        f_equal. by apply (elem_of_middle_unique before after apt apt appointmentID).
      - rewrite findOne_None in Hfind.
        assert (Hin : apt ∈ mongo.appointments db).
        { rewrite Hdocs. apply elem_of_app. right. apply list_elem_of_here. }
        apply Hfind in Hin. apply not_true_iff_false in Hin.
        by rewrite matches_byID_appointment in Hin. }
    rewrite Hfound. unfold UpdateOne. rewrite Hf1, Hdocs.
    rewrite updateOne_first, set_status_cancelled;
      [|by apply no_match_byID|by apply matches_byID_appointment].
    simpl. split_and!; [done|done| | |].
    + intros env' c' l a Hresp Ha Hida.
      apply (GetAppointments_listed _ _ _ _ _ Hresp) in Ha as [Ha _]. simpl in Ha.
      by apply (elem_of_middle_unique before after apt _ appointmentID).
    + intros env' c' l a Hresp Ha Hida.
      destruct (GetAppointment_listed _ _ _ _ Hresp) as (l' & [= <-] & Hl).
      apply Hl in Ha. simpl in Ha.
      by apply (elem_of_middle_unique before after apt _ appointmentID).
    + intros env' c' Hq Hf0' Hf1'. apply GetAppointments_unfiltered; [done..|].
      simpl. apply elem_of_app. right. apply list_elem_of_here.
Qed.

Lemma UpdateAppointment_applies_supplied_fields_witness :
  database (UpdateAppointment Clinic.env
              (Clinic.session Clinic.drwho (primitive.Hex 11%N) [])
              (Some {| upd_StartTime := Some "2024-08-01T9:00:00Z";
                       upd_EndTime := Some "next week";
                       upd_Service := Some "Whitening"; upd_Status := None |})
              Clinic.db)
    = {| mongo.users := mongo.users Clinic.db;
         mongo.appointments :=
           [Clinic.checkup;
            {| models.ID := 11%N; models.PatientID := 1%N;
               models.PatientName := "Alice Martin";
               models.StartTime := time.Date 2024 8 1 9 0 0 0;
               models.EndTime := time.Date 2024 7 31 23 30 0 0;
               models.Service := "Whitening"; models.Status := "Scheduled" |}] |} ∧
  response (UpdateAppointment Clinic.env
              (Clinic.session Clinic.drwho (primitive.Hex 10%N) [])
              (Some {| upd_StartTime := Some "2024-07-01T8:00:00Z"; upd_EndTime := None;
                       upd_Service := None; upd_Status := None |})
              Clinic.db)
    = gin.JSON http.StatusOK (gin.Message "Appointment updated successfully") ∧
  kindOf (response (UpdateAppointment Clinic.env
                      (Clinic.session Clinic.drwho (primitive.Hex 11%N) [])
                      (Some {| upd_StartTime := Some "next week"; upd_EndTime := None;
                               upd_Service := None; upd_Status := None |})
                      Clinic.db))
    = Some ValidationError.
Proof.
  split_and!.
  - destruct (UpdateAppointment_applies_supplied_fields Clinic.env
                (Clinic.session Clinic.drwho (primitive.Hex 11%N) [])
                {| upd_StartTime := Some "2024-08-01T9:00:00Z";
                   upd_EndTime := Some "next week";
                   upd_Service := Some "Whitening"; upd_Status := None |}
                Clinic.db 11%N) as [_ Happlied];
      [by left | reflexivity |].
    destruct (Happlied ltac:(by intros (? & _)) eq_refl
                [Clinic.checkup] Clinic.cleaning []) as [_ Hdb];
      [reflexivity | reflexivity | only_listed |].
    exact Hdb.
  - destruct (UpdateAppointment_applies_supplied_fields Clinic.env
                (Clinic.session Clinic.drwho (primitive.Hex 10%N) [])
                {| upd_StartTime := Some "2024-07-01T8:00:00Z"; upd_EndTime := None;
                   upd_Service := None; upd_Status := None |}
                Clinic.db 10%N) as [_ Happlied];
      [by left | reflexivity |].
    destruct (Happlied ltac:(by intros (? & _)) eq_refl
                [] Clinic.checkup [Clinic.cleaning]) as [Hresp _];
      [reflexivity | reflexivity | only_listed |].
    exact Hresp.
  - destruct (UpdateAppointment_applies_supplied_fields Clinic.env
                (Clinic.session Clinic.drwho (primitive.Hex 11%N) [])
                {| upd_StartTime := Some "next week"; upd_EndTime := None;
                   upd_Service := None; upd_Status := None |}
                Clinic.db 11%N) as [Hrefused _];
      [by left | reflexivity |].
    destruct Hrefused as (Hkind & _); [by split_and! | exact Hkind].
Defined.

Lemma UpdateAppointment_missing_reports_success_witness :
  response (UpdateAppointment Clinic.env
              (Clinic.session Clinic.drwho (primitive.Hex 77%N) [])
              (Some {| upd_StartTime := None; upd_EndTime := None;
                       upd_Service := None; upd_Status := Some "Completed" |})
              Clinic.db)
    = gin.JSON http.StatusOK (gin.Message "Appointment updated successfully") ∧
  database (UpdateAppointment Clinic.env
              (Clinic.session Clinic.drwho (primitive.Hex 77%N) [])
              (Some {| upd_StartTime := None; upd_EndTime := None;
                       upd_Service := None; upd_Status := Some "Completed" |})
              Clinic.db)
    = Clinic.db.
Proof.
  destruct (UpdateAppointment_missing_reports_success Clinic.env
              (Clinic.session Clinic.drwho (primitive.Hex 77%N) [])
              {| upd_StartTime := None; upd_EndTime := None;
                 upd_Service := None; upd_Status := Some "Completed" |}
              Clinic.db 77%N) as (Hresp & _ & Hdb & _);
    [by left | reflexivity | by intros (_ & _ & _ & ?) | reflexivity | only_listed |].
  split; [exact Hresp | exact Hdb].
Defined.

Lemma CancelAppointment_marks_cancelled_witness :
  database (CancelAppointment Clinic.env
              (Clinic.session Clinic.drwho (primitive.Hex 10%N) []) Clinic.db)
    = {| mongo.users := mongo.users Clinic.db;
         mongo.appointments := [withStatus "Cancelled" Clinic.checkup; Clinic.cleaning] |} ∧
  kindOf (response (CancelAppointment Clinic.env
                      (Clinic.session Clinic.drwho (primitive.Hex 77%N) []) Clinic.db))
    = Some NotFound.
Proof.
  split.
  - destruct (CancelAppointment_marks_cancelled Clinic.env
                (Clinic.session Clinic.drwho (primitive.Hex 10%N) []) Clinic.db 10%N)
      as [_ Hcancelled]; [by left | reflexivity |].
    destruct (Hcancelled [] Clinic.checkup [Clinic.cleaning]) as (_ & Hdb & _);
      [reflexivity | reflexivity | only_listed | only_listed | reflexivity | reflexivity |].
    exact Hdb.
  - destruct (CancelAppointment_marks_cancelled Clinic.env
                (Clinic.session Clinic.drwho (primitive.Hex 77%N) []) Clinic.db 77%N)
      as [Hmissing _]; [by left | reflexivity |].
    destruct Hmissing as (Hkind & _); [only_listed | exact Hkind].
Defined.

(** ** Accounts *)

Lemma matches_byEmail e (u : models.User) :
  bson.matches {[ "email" := bson.Is (bson.String e) ]} u = true ↔ models.Email u = e.
Proof.
  rewrite matches_lookup. split.
  - intros Hall. specialize (Hall "email" _ (lookup_singleton_eq _ _)).
    simpl in Hall. apply bool_decide_eq_true in Hall. congruence.
  - intros <- k c Hk. apply lookup_singleton_Some in Hk as [<- <-].
    simpl. by apply bool_decide_eq_true.
Qed.

Lemma insertOne_fresh_user emailIndex (user : models.User) docs :
  (∀ u, u ∈ docs →
     models.User_ID u ≠ models.User_ID user ∧ models.Email u ≠ models.Email user) →
  mongo.insertOne (mongo.usersUnique emailIndex) user docs = Some (app docs [user]).
Proof.
  intros Hfresh. unfold mongo.insertOne.
  replace (mongo.duplicateKey (mongo.usersUnique emailIndex) user docs) with false;
    [done|].
  symmetry. apply not_true_is_false. unfold mongo.duplicateKey.
  rewrite existsb_exists. intros (u & Hu & Hdup).
  apply list_elem_of_In, Hfresh in Hu as [Hid Hemail].
  destruct emailIndex; simpl in Hdup; rewrite orb_false_r in Hdup.
  - apply orb_true_iff in Hdup as [Hdup|Hdup];
      apply bool_decide_eq_true in Hdup; congruence.
  - apply bool_decide_eq_true in Hdup. congruence.
Qed.

Section Accounts.
Context `{utils.Crypto}.

(** C7.  A login with the address of an account and a password that the
    stored hash does not accept, and a login with an address that no
    account has, get the same response, the Unauthorized one with the same
    message, and leave the database alone, whatever the store does. *)
Theorem Login_refusals_indistinguishable env1 env2 db known unknown :
  (∃ u, u ∈ mongo.users db ∧ models.Email u = login_Email known) →
  (∀ u, u ∈ mongo.users db → models.Email u = login_Email known →
        utils.CheckPasswordHash (login_Password known) (models.Password u) = false) →
  (∀ u, u ∈ mongo.users db → models.Email u ≠ login_Email unknown) →
  let r1 := Login env1 (Some known) db in
  let r2 := Login env2 (Some unknown) db in
  response r1 = response r2 ∧
  response r1 = gin.JSON http.StatusUnauthorized (gin.Error "Invalid credentials") ∧
  kindOf (response r1) = Some Unauthorized ∧
  kindOf (response r2) = Some Unauthorized ∧
  database r1 = db ∧ database r2 = db.
Proof.
  intros _ Hwrong Habsent r1 r2.
  assert (H1 : r1 = reply db http.StatusUnauthorized (gin.Error "Invalid credentials")).
  { subst r1. unfold Login, FindOne. destruct (storeFault env1 0); [done|].
    destruct (mongo.findOne _ _) as [user|] eqn:Hfind; [|done].
    destruct (findOne_Some _ _ _ Hfind) as (before & after & Hdocs & Hm & _).
    apply matches_byEmail in Hm. rewrite Hwrong; [done| |done].
    rewrite Hdocs. apply elem_of_app. right. apply list_elem_of_here. }
  assert (H2 : r2 = reply db http.StatusUnauthorized (gin.Error "Invalid credentials")).
  { subst r2. unfold Login, FindOne. destruct (storeFault env2 0); [done|].
    replace (mongo.findOne _ _) with (@None models.User); [done|].
    symmetry. apply findOne_None. intros u Hu. apply not_true_is_false.
    rewrite matches_byEmail. by apply Habsent. }
  rewrite H1, H2. by split_and!.
Qed.

(** C9.  A registration that passes the binding checks, whose password is
    hashed and whose insertion the store accepts, stores and returns a
    user whose role is the role of the request as it is, or "client" when
    the request has none; the binding checks do not look at the role. *)
Theorem RegisterUser_stores_supplied_role env req db hashedPassword :
  validate req = None →
  utils.HashPassword (reg_Password req) = (hashedPassword, None) →
  storeFault env 0 = false →
  (∀ u, u ∈ mongo.users db →
     models.User_ID u ≠ NewObjectID env ∧ models.Email u ≠ reg_Email req) →
  let r := RegisterUser env (inl req) db in
  (∃ user,
     mongo.users (database r) = app (mongo.users db) [user] ∧
     response r = gin.JSON http.StatusCreated (gin.OneUser (gin.userJSON user)) ∧
     models.Role user = (if decide (reg_Role req = "") then "client" else reg_Role req) ∧
     (reg_Role req ≠ "" → models.Role user = reg_Role req)) ∧
  (∀ role, validate (withRole role req) = None).
Proof.
  intros Hvalid Hhash Hf0 Hfresh r. subst r. split.
  - unfold RegisterUser, InsertOne. rewrite Hvalid, Hhash, Hf0.
    rewrite insertOne_fresh_user by done.
    eexists. simpl. split_and!; [reflexivity|reflexivity|reflexivity|].
    intros Hrole. by destruct (decide (reg_Role req = "")).
  - intros role. exact Hvalid.
Qed.

End Accounts.

Lemma Login_refusals_indistinguishable_witness :
  response (@Login Clinic.crypto Clinic.env
              (Some {| login_Email := "alice@example.com"; login_Password := "guess" |})
              Clinic.db)
    = response (@Login Clinic.crypto Clinic.env
                  (Some {| login_Email := "nobody@example.com"; login_Password := "guess" |})
                  Clinic.db).
Proof.
  destruct (@Login_refusals_indistinguishable Clinic.crypto Clinic.env Clinic.env Clinic.db
              {| login_Email := "alice@example.com"; login_Password := "guess" |}
              {| login_Email := "nobody@example.com"; login_Password := "guess" |})
    as (Hsame & _).
  - exists Clinic.alice. split; [apply list_elem_of_here | reflexivity].
  - intros u Hu Hemail. simpl in Hu.
    repeat (apply elem_of_cons in Hu as [->|Hu]; [first [reflexivity | discriminate Hemail]|]).
    by apply elem_of_nil in Hu.
  - intros u Hu Hemail. simpl in Hu.
    repeat (apply elem_of_cons in Hu as [->|Hu]; [discriminate Hemail|]).
    by apply elem_of_nil in Hu.
  - exact Hsame.
Defined.

Lemma RegisterUser_stores_supplied_role_witness :
  ∃ user,
    mongo.users (database (@RegisterUser Clinic.crypto Clinic.env
                             (inl {| reg_FullName := "Mallory"; reg_Email := "m@example.com";
                                     reg_Password := "longenough1"; reg_Role := "dentist";
                                     reg_Phone := "+15550009" |}) Clinic.db))
      = app (mongo.users Clinic.db) [user] ∧
    models.Role user = "dentist".
Proof.
  destruct (@RegisterUser_stores_supplied_role Clinic.crypto Clinic.env
              {| reg_FullName := "Mallory"; reg_Email := "m@example.com";
                 reg_Password := "longenough1"; reg_Role := "dentist";
                 reg_Phone := "+15550009" |} Clinic.db "bcrypt:longenough1")
    as [(user & Husers & _ & _ & Hrole) _];
    [reflexivity | reflexivity | reflexivity | |].
  - intros u Hu. simpl in Hu.
    repeat (apply elem_of_cons in Hu as [->|Hu]; [split; discriminate|]).
    by apply elem_of_nil in Hu.
  - exists user. split; [exact Husers | apply Hrole; discriminate].
Defined.

(* ===================================================================== *)
(** * Further properties of the handlers *)
(* ===================================================================== *)

(** ** Roles *)

Lemma is_other_role c :
  gin.userRole c ≠ "dentist" → gin.userRole c ≠ "staff" →
  bool_decide (gin.userRole c ≠ "dentist" ∧ gin.userRole c ≠ "staff") = true.
Proof. intros. by apply bool_decide_eq_true_2. Qed.

(** X1.  Updating and cancelling are refused, with a permission error, to
    every caller who is neither dentist nor staff, before the identifier,
    the body or the store are looked at: the database stays as it is and
    nothing is dispatched. *)
Theorem staff_only_operations env c body db :
  gin.userRole c ≠ "dentist" → gin.userRole c ≠ "staff" →
  UpdateAppointment env c body db
    = reply db http.StatusForbidden (gin.Error "Permission denied.") ∧
  CancelAppointment env c db
    = reply db http.StatusForbidden (gin.Error "Permission denied.") ∧
  kindOf (response (UpdateAppointment env c body db)) = Some PermissionDenied ∧
  kindOf (response (CancelAppointment env c db)) = Some PermissionDenied.
Proof.
  intros Hd Hs. unfold UpdateAppointment, CancelAppointment.
  rewrite (is_other_role _ Hd Hs). by split_and!.
Qed.

Lemma staff_only_operations_witness :
  database (CancelAppointment Clinic.env
              (Clinic.session Clinic.alice (primitive.Hex 10%N) []) Clinic.db) = Clinic.db ∧
  gin.code (response (UpdateAppointment Clinic.env
                        (Clinic.session Clinic.alice (primitive.Hex 10%N) [])
                        (Some {| upd_StartTime := None; upd_EndTime := None;
                                 upd_Service := None; upd_Status := Some "Completed" |})
                        Clinic.db)) = http.StatusForbidden.
Proof.
  destruct (staff_only_operations Clinic.env
              (Clinic.session Clinic.alice (primitive.Hex 10%N) [])
              (Some {| upd_StartTime := None; upd_EndTime := None;
                       upd_Service := None; upd_Status := Some "Completed" |})
              Clinic.db) as (Hupdate & Hcancel & _); [discriminate | discriminate |].
  split; [by rewrite Hcancel | by rewrite Hupdate].
Defined.

(** ** Failures *)

Lemma updateOne_unmatched {A} `{bson.Document A} filter fields (docs : list A) :
  (mongo.updateOne filter fields docs).2 = 0%nat →
  (mongo.updateOne filter fields docs).1 = docs.
Proof.
  induction docs as [|d docs IH]; simpl; [done|].
  destruct (bson.matches filter d); [done|].
  destruct (mongo.updateOne filter fields docs) as [rest n]. simpl in *.
  intros Hn. by rewrite IH.
Qed.

Lemma dispatch_errors_leave_no_trace env c route db :
  400 ≤ gin.code (response (dispatch env c route db)) →
  database (dispatch env c route db) = db ∧ dispatched (dispatch env c route db) = [].
Proof.
  destruct route as [|body| |body| | |body]; simpl.
  - unfold GetAppointments. by repeat case_match.
  - unfold CreateAppointment. by repeat case_match.
  - unfold GetAppointment. by repeat case_match.
  - unfold UpdateAppointment. by repeat case_match.
  - unfold CancelAppointment. by repeat case_match.
  - unfold GetCurrentUser. by repeat case_match.
  - unfold UpdateCurrentUser, UpdateOne.
    destruct body as [reqFullName|]; [|done].
    destruct (decide (size _ = 0%nat)); [done|].
    destruct (storeFault env 0); [done|].
    destruct (mongo.updateOne _ _ _) as [users matchedCount] eqn:Hupdate.
    destruct (matchedCount =? 0)%nat eqn:Hcount; [|done].
    intros _. apply Nat.eqb_eq in Hcount. subst matchedCount.
    match type of Hupdate with
    | mongo.updateOne ?f ?s ?d = _ => pose proof (updateOne_unmatched f s d) as Hsame
    end.
    rewrite Hupdate in Hsame. cbn [fst snd] in Hsame.
    cbn [database dispatched reply]. rewrite (Hsame eq_refl). by destruct db.
Qed.

(** X2.  Whatever the request, a response with an error status leaves the
    database as it was and dispatches no message. *)
Theorem errors_leave_no_trace `{utils.Crypto} env request db :
  400 ≤ gin.code (response (serve env request db)) →
  database (serve env request db) = db ∧ dispatched (serve env request db) = [].
Proof.
  destruct request as [body|body|authHeader params queries route]; simpl.
  - unfold RegisterUser. by repeat case_match.
  - unfold Login. by repeat case_match.
  - destruct (middleware.AuthMiddleware _ _ _ _) as [aborted|c]; [done|].
    apply dispatch_errors_leave_no_trace.
Qed.

Lemma errors_leave_no_trace_witness :
  database (@serve Clinic.crypto Clinic.env
              (POST_auth_register
                 (inl {| reg_FullName := "Alice Again"; reg_Email := "alice@example.com";
                         reg_Password := "wonderland2"; reg_Role := "";
                         reg_Phone := "+15550001" |})) Clinic.db) = Clinic.db.
Proof.
  refine (proj1 (@errors_leave_no_trace Clinic.crypto Clinic.env
                   (POST_auth_register
                      (inl {| reg_FullName := "Alice Again"; reg_Email := "alice@example.com";
                              reg_Password := "wonderland2"; reg_Role := "";
                              reg_Phone := "+15550001" |})) Clinic.db _)).
  by vm_compute.
Defined.

(** ** What a request can do to the database *)

Section Update_facts.
Context {A : Type} `{bson.Document A}.

Lemma updateOne_Forall2 (R : A → A → Prop) filter fields (docs : list A) :
  (∀ d, R d d) → (∀ d, bson.matches filter d = true → R d (bson.set fields d)) →
  Forall2 R docs (mongo.updateOne filter fields docs).1.
Proof.
  intros Hrefl Hset. induction docs as [|d docs IH]; simpl; [constructor|].
  destruct (bson.matches filter d) eqn:Hm; simpl.
  - constructor; [by apply Hset|]. by apply Forall_Forall2_diag, Forall_true.
  - destruct (mongo.updateOne filter fields docs) as [rest n]. simpl in *.
    by constructor.
Qed.

Lemma insertOne_Some unique (d : A) docs docs' :
  mongo.insertOne unique d docs = Some docs' →
  docs' = app docs [d] ∧
  ∀ d' k, d' ∈ docs → k ∈ unique → bson.field d k ≠ bson.field d' k.
Proof.
  unfold mongo.insertOne.
  destruct (mongo.duplicateKey unique d docs) eqn:Hdup; [done|].
  intros [= <-]. split; [done|]. intros d' k Hd' Hk Heq.
  apply not_true_iff_false in Hdup. apply Hdup. unfold mongo.duplicateKey.
  apply existsb_exists. exists d'. split; [by apply list_elem_of_In|].
  apply existsb_exists. exists k. split; [by apply list_elem_of_In|].
  by apply bool_decide_eq_true.
Qed.

End Update_facts.

Lemma matches_byID_user oid (u : models.User) :
  bson.matches (byID oid) u = true ↔ models.User_ID u = oid.
Proof.
  rewrite matches_lookup. unfold byID. split.
  - intros Hall. specialize (Hall "_id" _ (lookup_singleton_eq _ _)).
    simpl in Hall. apply bool_decide_eq_true in Hall. congruence.
  - intros <- k c Hk. apply lookup_singleton_Some in Hk as [<- <-].
    simpl. by apply bool_decide_eq_true.
Qed.

Lemma validate_complete `{utils.Crypto} req :
  validate req = None →
  reg_FullName req ≠ "" ∧ reg_Email req ≠ "" ∧ reg_Phone req ≠ "" ∧
  utils.isEmail (reg_Email req) = true ∧ (8 ≤ runeCount (reg_Password req))%nat.
Proof.
  unfold validate. repeat case_match; try done. intros _.
  split_and!; try done.
  - by apply negb_false_iff.
  - by apply Nat.ltb_ge.
Qed.

Lemma dispatch_step emailIndex env c route db :
  step emailIndex db (database (dispatch env c route db)).
Proof.
  destruct route as [|body| |body| | |body]; simpl.
  - unfold GetAppointments. repeat case_match; apply step_none.
  - unfold CreateAppointment, FindOne, InsertOne.
    repeat case_match; simpl; try apply step_none; simplify_eq.
    match goal with
    | Hins : mongo.insertOne _ _ _ = Some _ |- _ =>
        apply insertOne_Some in Hins as [-> Hfresh]
    end.
    match goal with
    | Hfind : mongo.findOne _ _ = Some ?p |- _ =>
        apply findOne_Some in Hfind as (before & after & Husers & Hm & _);
        apply matches_byID_user in Hm
    end.
    eapply step_book; [|..]; try done.
    + intros a' Ha' Heq.
      apply (Hfresh a' "_id" Ha'); [apply list_elem_of_here|]. simpl. by rewrite Heq.
    + rewrite Husers. apply elem_of_app. right. apply list_elem_of_here.
  - unfold GetAppointment. repeat case_match; apply step_none.
  - unfold UpdateAppointment, UpdateOne.
    repeat case_match; simpl; try apply step_none; simplify_eq.
    apply step_amend.
    match goal with
    | Hu : mongo.updateOne ?f ?s ?d = _ |- _ =>
        pose proof (updateOne_Forall2 (λ a a', appointmentCore a' = appointmentCore a) f s d)
          as Hcore; rewrite Hu in Hcore
    end.
    apply Hcore; [done|]. intros a _. unfold appointmentCore. simpl.
    unfold models.orString.
    by rewrite (proj2 (proj2 (proj2 (proj2 (updateFieldsOf_lookup _))))).
  - unfold CancelAppointment, UpdateOne.
    destruct (bool_decide _); [apply step_none|].
    destruct (primitive.ObjectIDFromHex _) as [appointmentID [err|]]; [apply step_none|].
    destruct (FindOne env 0 _ _) as [apt|]; [|apply step_none].
    destruct (storeFault env 1); [apply step_none|].
    destruct (mongo.updateOne _ _ _) as [appointments matched] eqn:Hupdate.
    apply step_amend.
    match type of Hupdate with
    | mongo.updateOne ?f ?s ?d = _ =>
        pose proof (updateOne_Forall2 (λ a a', appointmentCore a' = appointmentCore a) f s d)
          as Hcore; rewrite Hupdate in Hcore
    end.
    by apply Hcore.
  - unfold GetCurrentUser. repeat case_match; apply step_none.
  - unfold UpdateCurrentUser, UpdateOne.
    destruct body as [reqFullName|]; [|apply step_none].
    destruct (decide (reqFullName ≠ "")) as [Hname|Hname]; [|apply step_none].
    destruct (decide (size _ = 0%nat)); [apply step_none|].
    destruct (storeFault env 0); [apply step_none|].
    destruct (mongo.updateOne _ _ _) as [users matchedCount] eqn:Hupdate.
    assert (Hstep : step emailIndex db
                      {| mongo.users := users;
                         mongo.appointments := mongo.appointments db |}).
    { apply step_rename.
      match type of Hupdate with
      | mongo.updateOne ?f ?s ?d = _ =>
          pose proof (updateOne_Forall2
                        (λ u u', u' = u ∨ ∃ name, name ≠ "" ∧ u' = renamed name u) f s d)
            as Hcore; rewrite Hupdate in Hcore
      end.
      apply Hcore; [by left|]. intros u _. right. by exists reqFullName. }
    by destruct (matchedCount =? 0)%nat.
Qed.

Lemma insertOne_user_fresh emailIndex (user : models.User) docs docs' :
  mongo.insertOne (mongo.usersUnique emailIndex) user docs = Some docs' →
  docs' = app docs [user] ∧
  (∀ u, u ∈ docs → models.User_ID u ≠ models.User_ID user) ∧
  (emailIndex = true → ∀ u, u ∈ docs → models.Email u ≠ models.Email user).
Proof.
  intros Hinsert. apply insertOne_Some in Hinsert as [-> Hfresh]. split_and!; [done| |].
  - intros u Hu Heq. apply (Hfresh u "_id" Hu).
    + destruct emailIndex; apply list_elem_of_here.
    + simpl. by rewrite Heq.
  - intros -> u Hu Heq. apply (Hfresh u "email" Hu).
    + apply list_elem_of_further, list_elem_of_here.
    + simpl. by rewrite Heq.
Qed.

Lemma serve_step `{utils.Crypto} env request db :
  step (uniqueEmails env) db (database (serve env request db)).
Proof.
  destruct request as [body|body|authHeader params queries route]; simpl.
  - unfold RegisterUser, InsertOne.
    destruct body as [req|err]; [|apply step_none].
    destruct (validate req) as [err|] eqn:Hvalid; [apply step_none|].
    destruct (utils.HashPassword _) as [hashedPassword [err|]]; [apply step_none|].
    destruct (storeFault env 0); [apply step_none|].
    destruct (mongo.insertOne _ _ _) as [users|] eqn:Hinsert; [|apply step_none].
    apply insertOne_user_fresh in Hinsert as (-> & Hid & Haddress). simpl.
    destruct (validate_complete _ Hvalid) as (Hname & Hemail & Hphone & _).
    apply step_register; simpl; try done.
    by destruct (decide (reg_Role req = "")).
  - unfold Login. repeat case_match; apply step_none.
  - destruct (middleware.AuthMiddleware _ _ _ _) as [aborted|c]; [apply step_none|].
    apply dispatch_step.
Qed.

Lemma Forall2_fmap_eq {A B} (f : A → B) (l l' : list A) :
  Forall2 (λ x x', f x' = f x) l l' → f <$> l' = f <$> l.
Proof. induction 1 as [|x x' l l' Hx _ IH]; csimpl; [done|]. by rewrite Hx, IH. Qed.

Lemma renamed_users_core users users' :
  Forall2 (λ u u', u' = u ∨ ∃ name, name ≠ "" ∧ u' = renamed name u) users users' →
  Forall2 (λ u u', userCore u' = userCore u) users users'.
Proof.
  intros Hrenamed. eapply Forall2_impl; [exact Hrenamed|].
  intros u u' [->|(name & _ & ->)]; reflexivity.
Qed.

Lemma NoDup_snoc_fresh {A B} (f : A → B) (l : list A) (x : A) :
  NoDup (f <$> l) → (∀ y, y ∈ l → f y ≠ f x) → NoDup (f <$> app l [x]).
Proof.
  intros Hnodup Hfresh. rewrite fmap_app. apply NoDup_app. split_and!; [done| |].
  - intros b Hb Hb'. apply list_elem_of_fmap in Hb as (y & -> & Hy).
    simpl in Hb'. apply list_elem_of_singleton in Hb'. by apply (Hfresh y).
  - simpl. apply NoDup_singleton.
Qed.

Lemma step_consistent emailIndex db db' :
  step emailIndex db db' → consistent db → consistent db'.
Proof.
  intros Hstep [Hids Happts Hpatients Hcomplete].
  destruct Hstep as [|u Hfresh Haddress Hname Hemail Hrole Hphone
                     |a patient Hfresh Hpatient Hid Hpname Hstatus
                     |appointments' Hcore|users' Hrenamed];
    constructor; simpl; try done.
  - by apply NoDup_snoc_fresh.
  - intros a Ha. destruct (Hpatients a Ha) as (p & Hp & Hpid).
    exists p. split; [|done]. apply elem_of_app. by left.
  - intros u' Hu'. apply elem_of_app in Hu' as [Hu'|Hu']; [by apply Hcomplete|].
    apply list_elem_of_singleton in Hu' as ->. done.
  - by apply NoDup_snoc_fresh.
  - intros a' Ha'. apply elem_of_app in Ha' as [Ha'|Ha']; [by apply Hpatients|].
    apply list_elem_of_singleton in Ha' as ->. by exists patient.
  - replace (models.ID <$> appointments') with (models.ID <$> mongo.appointments db);
      [done|].
    symmetry. apply Forall2_fmap_eq. eapply Forall2_impl; [exact Hcore|].
    intros a a' Heq. unfold appointmentCore in Heq. congruence.
  - intros a' Ha'.
    assert (Hpid : models.PatientID a' ∈ models.PatientID <$> mongo.appointments db).
    { replace (models.PatientID <$> mongo.appointments db)
        with (models.PatientID <$> appointments').
      - apply list_elem_of_fmap. by exists a'.
      - apply Forall2_fmap_eq. eapply Forall2_impl; [exact Hcore|].
        intros a0 a0' Heq. unfold appointmentCore in Heq. congruence. }
    apply list_elem_of_fmap in Hpid as (a & Heq & Ha).
    destruct (Hpatients a Ha) as (p & Hp & Hpid). exists p. split; [done|]. congruence.
  - replace (models.User_ID <$> users') with (models.User_ID <$> mongo.users db); [done|].
    symmetry. apply Forall2_fmap_eq. eapply Forall2_impl; [exact Hrenamed|].
    intros u u' [->|(name & _ & ->)]; reflexivity.
  - intros a Ha. destruct (Hpatients a Ha) as (p & Hp & Hpid).
    assert (Hin : models.User_ID p ∈ models.User_ID <$> users').
    { replace (models.User_ID <$> users') with (models.User_ID <$> mongo.users db).
      - apply list_elem_of_fmap. by exists p.
      - symmetry. apply Forall2_fmap_eq. eapply Forall2_impl; [exact Hrenamed|].
        intros u u' [->|(name & _ & ->)]; reflexivity. }
    apply list_elem_of_fmap in Hin as (p' & Heq & Hp'). exists p'. split; [done|]. congruence.
  - intros u' Hu'.
    destruct (proj1 (list_elem_of_lookup _ _) Hu') as [i Hi].
    destruct (Forall2_lookup_r _ _ _ i u' Hrenamed Hi) as (u & Hu & Hrel).
    apply list_elem_of_lookup_2 in Hu. specialize (Hcomplete u Hu).
    destruct Hrel as [->|(name & Hname & ->)]; [done|]. simpl. tauto.
Qed.

Lemma step_unique_emails db db' :
  step true db db' →
  NoDup (models.Email <$> mongo.users db) → NoDup (models.Email <$> mongo.users db').
Proof.
  destruct 1 as [|u _ Haddress _ _ _ _|a patient _ _ _ _ _|appointments' _
                 |users' Hrenamed]; simpl; try done.
  - intros Hemails. apply NoDup_snoc_fresh; [done|]. by apply Haddress.
  - replace (models.Email <$> users') with (models.Email <$> mongo.users db); [done|].
    symmetry. apply Forall2_fmap_eq. eapply Forall2_impl; [exact Hrenamed|].
    intros u u' [->|(name & _ & ->)]; reflexivity.
Qed.

Lemma step_keeps_records emailIndex db db' :
  step emailIndex db db' →
  userCore <$> mongo.users db `prefix_of` userCore <$> mongo.users db' ∧
  appointmentCore <$> mongo.appointments db
    `prefix_of` appointmentCore <$> mongo.appointments db'.
Proof.
  destruct 1 as [|u _ _ _ _ _ _|a patient _ _ _ _ _|appointments' Hcore|users' Hrenamed];
    simpl; rewrite ?fmap_app; split; try done; try (by apply prefix_app_r).
  - by rewrite (Forall2_fmap_eq _ _ _ Hcore).
  - by rewrite (Forall2_fmap_eq _ _ _ (renamed_users_core _ _ Hrenamed)).
Qed.

(** X3.  No sequence of requests ever removes a user or an appointment,
    or changes the identifier, e-mail address, password hash, role or
    phone of a stored user, or the identifier, patient and patient name of
    a stored appointment. *)
Theorem serveAll_keeps_records `{utils.Crypto} trace db :
  userCore <$> mongo.users db
    `prefix_of` userCore <$> mongo.users (serveAll trace db) ∧
  appointmentCore <$> mongo.appointments db
    `prefix_of` appointmentCore <$> mongo.appointments (serveAll trace db).
Proof.
  revert db. induction trace as [|[env request] trace IH]; intros db; [done|].
  simpl. destruct (step_keeps_records _ _ _ (serve_step env request db)) as [Hu Ha].
  destruct (IH (database (serve env request db))) as [Hu' Ha'].
  split; etrans; done.
Qed.

(** X4.  Every sequence of requests keeps a database consistent: the
    identifiers of users and of appointments stay unique, every appointment
    has its patient among the users, and no user lacks a name, an address,
    a role or a phone.  The e-mail addresses stay unique as well when every
    request meets a store that has the unique index on them, which the
    program itself does not create. *)
Theorem serveAll_consistent `{utils.Crypto} trace db :
  consistent db →
  consistent (serveAll trace db) ∧
  ((∀ env request, (env, request) ∈ trace → uniqueEmails env = true) →
   NoDup (models.Email <$> mongo.users db) →
   NoDup (models.Email <$> mongo.users (serveAll trace db))).
Proof.
  revert db. induction trace as [|[env request] trace IH]; intros db Hdb; [done|].
  simpl.
  destruct (IH (database (serve env request db))) as [Hconsistent Hemails].
  { eapply step_consistent; [apply serve_step|done]. }
  split; [done|]. intros Hindex Hunique. apply Hemails.
  - intros env' request' Hin. apply (Hindex env' request'). by apply list_elem_of_further.
  - apply (step_unique_emails db); [|done].
    rewrite <- (Hindex env request (list_elem_of_here _ _)). apply serve_step.
Qed.

(** ** What the list handlers show *)

Lemma matches_insert {A} `{bson.Document A} filter k c (d : A) :
  filter !! k = None →
  bson.matches (<[k := c]> filter) d = true ↔
  bson.holds c (bson.field d k) = true ∧ bson.matches filter d = true.
Proof.
  intros Hk. rewrite !matches_lookup. split.
  - intros Hall. split; [apply Hall, lookup_insert_eq|].
    intros k' c' Hk'. apply Hall. rewrite lookup_insert_ne; [done|]. congruence.
  - intros [Hc Hall] k' c' Hk'.
    apply lookup_insert_Some in Hk' as [[<- <-]|[_ Hk']]; [done|]. by apply Hall.
Qed.

Lemma holds_ops ops x :
  bson.holds (bson.Ops ops) (Some x) = true ↔
  ∀ op v, ops !! op = Some v → bson.holdsOp op v x = true.
Proof. apply (forallb_map_to_list (λ op v, bson.holdsOp op v x) ops). Qed.

Lemma holds_gte s (a : models.Appointment) :
  bson.holds (bson.Ops {[ "$gte" := bson.DateTime s ]}) (bson.field a "startTime") = true
  ↔ s ≤ models.StartTime a.
Proof.
  change (bson.field a "startTime") with (Some (bson.DateTime (models.StartTime a))).
  rewrite holds_ops. split.
  - intros Hall. apply Z.leb_le. apply (Hall "$gte" _ (lookup_singleton_eq _ _)).
  - intros Hle op v Hop. apply lookup_singleton_Some in Hop as [<- <-].
    by apply Z.leb_le.
Qed.

Lemma holds_lte e (a : models.Appointment) :
  bson.holds (bson.Ops {[ "$lte" := bson.DateTime e ]}) (bson.field a "startTime") = true
  ↔ models.StartTime a ≤ e.
Proof.
  change (bson.field a "startTime") with (Some (bson.DateTime (models.StartTime a))).
  rewrite holds_ops. split.
  - intros Hall. apply Z.leb_le. apply (Hall "$lte" _ (lookup_singleton_eq _ _)).
  - intros Hle op v Hop. apply lookup_singleton_Some in Hop as [<- <-].
    by apply Z.leb_le.
Qed.

Lemma holds_between s e (a : models.Appointment) :
  bson.holds (bson.Ops (<[ "$lte" := bson.DateTime e ]> {[ "$gte" := bson.DateTime s ]}))
    (bson.field a "startTime") = true
  ↔ s ≤ models.StartTime a ∧ models.StartTime a ≤ e.
Proof.
  change (bson.field a "startTime") with (Some (bson.DateTime (models.StartTime a))).
  rewrite holds_ops. split.
  - intros Hall. split; apply Z.leb_le.
    + apply (Hall "$gte" (bson.DateTime s)).
      by rewrite lookup_insert_ne, lookup_singleton_eq.
    + apply (Hall "$lte" (bson.DateTime e)). by rewrite lookup_insert_eq.
  - intros [Hs He] op v Hop.
    apply lookup_insert_Some in Hop as [[<- <-]|[_ Hop]]; [by apply Z.leb_le|].
    apply lookup_singleton_Some in Hop as [<- <-]. by apply Z.leb_le.
Qed.

Lemma ParseDateOnly_nonempty s t : time.ParseDateOnly s = Some t → s ≠ "".
Proof. by intros Hparse ->. Qed.

(** The date range of the two list handlers, on top of a filter that
    says nothing of the start time. *)
Lemma date_range_matches c filter (a : models.Appointment) :
  filter !! "startTime" = None →
  bson.matches (filterEndDate c (filterStartDate c filter)) a = true ↔
  (∀ startDate, time.ParseDateOnly (gin.Query c "startDate") = Some startDate →
                startDate ≤ models.StartTime a) ∧
  (∀ endDate, time.ParseDateOnly (gin.Query c "endDate") = Some endDate →
              models.StartTime a ≤ time.Add endDate (23 * time.Hour + 59 * time.Minute)) ∧
  bson.matches filter a = true.
Proof.
  intros Hfree. unfold filterStartDate, filterEndDate.
  destruct (time.ParseDateOnly (gin.Query c "startDate")) as [s|] eqn:Hs;
    destruct (time.ParseDateOnly (gin.Query c "endDate")) as [e|] eqn:He.
  - rewrite !decide_True by by eapply ParseDateOnly_nonempty.
    rewrite lookup_insert_eq, insert_insert_eq, matches_insert, holds_between by done.
    split.
    + intros [[Hlo Hhi] Hm]. split_and!; [by intros ? [= <-]|by intros ? [= <-]|done].
    + intros (Hlo & Hhi & Hm). split; [split|]; auto.
  - rewrite (decide_True (P := gin.Query c "startDate" ≠ ""))
      by by eapply ParseDateOnly_nonempty.
    assert (Hsame : (if decide (gin.Query c "endDate" ≠ "")
                     then <[ "startTime" := bson.Ops {[ "$gte" := bson.DateTime s ]} ]> filter
                     else <[ "startTime" := bson.Ops {[ "$gte" := bson.DateTime s ]} ]> filter)
                    = <[ "startTime" := bson.Ops {[ "$gte" := bson.DateTime s ]} ]> filter)
      by by destruct (decide (gin.Query c "endDate" ≠ "")).
    rewrite Hsame, matches_insert, holds_gte by done. split.
    + intros [Hlo Hm]. split_and!; [by intros ? [= <-]|done|done].
    + intros (Hlo & _ & Hm). split; auto.
  - assert (Hsame : (if decide (gin.Query c "startDate" ≠ "") then filter else filter)
                    = filter) by by destruct (decide (gin.Query c "startDate" ≠ "")).
    rewrite Hsame. rewrite decide_True by by eapply ParseDateOnly_nonempty.
    rewrite Hfree, matches_insert, holds_lte by done. split.
    + intros [Hhi Hm]. split_and!; [done|by intros ? [= <-]|done].
    + intros (_ & Hhi & Hm). split; auto.
  - assert (Hsame : (if decide (gin.Query c "startDate" ≠ "") then filter else filter)
                    = filter) by by destruct (decide (gin.Query c "startDate" ≠ "")).
    rewrite Hsame.
    assert (Hsame' : (if decide (gin.Query c "endDate" ≠ "") then filter else filter)
                     = filter) by by destruct (decide (gin.Query c "endDate" ≠ "")).
    rewrite Hsame'. split; [by intros Hm|by intros (_ & _ & Hm)].
Qed.

Lemma status_matches c filter (a : models.Appointment) :
  filter !! "status" = None →
  bson.matches (filterStatus c filter) a = true ↔
  (gin.Query c "status" ≠ "" → models.Status a = gin.Query c "status") ∧
  bson.matches filter a = true.
Proof.
  intros Hfree. unfold filterStatus.
  destruct (decide (gin.Query c "status" ≠ "")) as [Hstatus|Hstatus].
  - rewrite matches_insert by done. simpl. rewrite bool_decide_eq_true. split.
    + intros [[= Heq] Hm]. by split.
    + intros [Heq Hm]. split; [|done]. by rewrite Heq.
  - split; [by intros Hm|by intros [_ Hm]].
Qed.

Lemma query_matches c filter (a : models.Appointment) :
  filter !! "startTime" = None → filter !! "status" = None →
  bson.matches (filterStatus c (filterEndDate c (filterStartDate c filter))) a = true ↔
  inQuery c a ∧ bson.matches filter a = true.
Proof.
  intros Hst Hstatus. rewrite status_matches, date_range_matches; [|done|].
  - unfold inQuery. tauto.
  - by rewrite filterEndDate_lookup_ne, filterStartDate_lookup_ne.
Qed.

Lemma is_patient_matches pID filter (a : models.Appointment) :
  filter !! "patientId" = None →
  bson.matches (<[ "patientId" := bson.Is (bson.ObjectID pID) ]> filter) a = true ↔
  models.PatientID a = pID ∧ bson.matches filter a = true.
Proof.
  intros Hfree. rewrite matches_insert by done. simpl. rewrite bool_decide_eq_true.
  split; [by intros [[= ->] Hm]|by intros [-> Hm]].
Qed.

(** What [Find] and [All] hand to a list handler when the store serves
    them: the matching documents, or a nil slice when there is none. *)
Lemma listing env filter key dir (docs : list models.Appointment) :
  storeFault env 0 = false → storeFault env 1 = false →
  ∃ s, (Find env 0 filter key dir docs ≫= λ cursor, All env 1 cursor None) = Some s ∧
       default [] s = mongo.sortBy key dir (mongo.find filter docs).
Proof.
  intros Hf0 Hf1. unfold Find, All. rewrite Hf0, Hf1. simpl.
  eexists. split; [reflexivity|]. unfold mongo.All. by destruct (mongo.sortBy _ _ _).
Qed.

(** X5.  When the store serves the query, [GET /api/appointments] answers
    200 with exactly the stored appointments that start within the asked
    range and have the asked status, whoever asks; a date that is not of
    the form YYYY-MM-DD is ignored. *)
Theorem GetAppointments_exact env c db :
  storeFault env 0 = false → storeFault env 1 = false →
  ∃ s, response (GetAppointments env c db)
         = gin.JSON http.StatusOK (gin.Appointments s) ∧
       ∀ a, a ∈ default [] s ↔ a ∈ mongo.appointments db ∧ inQuery c a.
Proof.
  intros Hf0 Hf1. unfold GetAppointments.
  destruct (listing env (filterStatus c (filterEndDate c (filterStartDate c ∅)))
              "startTime" 1 (mongo.appointments db) Hf0 Hf1) as (s & Hs & Hlist).
  destruct (Find _ _ _ _ _ _) as [cursor|]; [|done]. simpl in Hs. rewrite Hs.
  exists s. split; [done|]. intros a.
  rewrite Hlist, elem_of_sortBy, elem_of_find, query_matches by done.
  rewrite matches_empty. tauto.
Qed.

(** X6.  When the store serves the query, [GET /api/appointment/user/:id]
    answers 200 with exactly the stored appointments within the asked range
    and status that are in the caller's scope: for a client (with a
    well-formed identifier) their own, for anyone else those of the patient
    named by a well-formed [patientId], or all. *)
Theorem GetAppointment_exact env c db :
  storeFault env 0 = false → storeFault env 1 = false →
  (gin.userRole c = "client" → (primitive.ObjectIDFromHex (gin.userID c)).2 = None) →
  ∃ l, response (GetAppointment env c db)
         = gin.JSON http.StatusOK (gin.Appointments (Some l)) ∧
       ∀ a, a ∈ l ↔ a ∈ mongo.appointments db ∧ inQuery c a ∧ inScope c a.
Proof.
  intros Hf0 Hf1 Hid. unfold GetAppointment, inScope.
  destruct (decide (gin.userRole c = "client")) as [Hclient|Hother].
  - specialize (Hid Hclient).
    destruct (primitive.ObjectIDFromHex (gin.userID c)) as [patientID err].
    simpl in Hid. subst err.
    rewrite decide_False by (by intros Hne).
    destruct (listing env
                (filterStatus c (filterEndDate c (filterStartDate c
                   (<[ "patientId" := bson.Is (bson.ObjectID patientID) ]> ∅))))
                "startTime" (-1) (mongo.appointments db) Hf0 Hf1) as (s & Hs & Hlist).
    destruct (Find _ _ _ _ _ _) as [cursor|]; [|done]. simpl in Hs. rewrite Hs.
    exists (default [] s). split; [by destruct s|]. intros a.
    rewrite Hlist, elem_of_sortBy, elem_of_find, query_matches by done.
    rewrite is_patient_matches, matches_empty by done. simpl. tauto.
  - rewrite decide_True by done.
    destruct (decide (gin.Query c "patientId" ≠ "")) as [Hasked|Hasked].
    + destruct (primitive.ObjectIDFromHex (gin.Query c "patientId")) as [pID [err|]].
      * destruct (listing env (filterStatus c (filterEndDate c (filterStartDate c ∅)))
                    "startTime" (-1) (mongo.appointments db) Hf0 Hf1) as (s & Hs & Hlist).
        destruct (Find _ _ _ _ _ _) as [cursor|]; [|done]. simpl in Hs. rewrite Hs.
        exists (default [] s). split; [by destruct s|]. intros a.
        rewrite Hlist, elem_of_sortBy, elem_of_find, query_matches by done.
        rewrite matches_empty. split; [|tauto]. intros (Ha & Hq & _). by split_and!.
      * destruct (listing env
                    (<[ "patientId" := bson.Is (bson.ObjectID pID) ]>
                       (filterStatus c (filterEndDate c (filterStartDate c ∅))))
                    "startTime" (-1) (mongo.appointments db) Hf0 Hf1) as (s & Hs & Hlist).
        destruct (Find _ _ _ _ _ _) as [cursor|]; [|done]. simpl in Hs. rewrite Hs.
        exists (default [] s). split; [by destruct s|]. intros a.
        rewrite Hlist, elem_of_sortBy, elem_of_find, is_patient_matches.
        -- rewrite query_matches, matches_empty by done. split.
           ++ intros (Ha & Hp & Hq & _). split_and!; [done|done|]. by intros ? [= <-].
           ++ intros (Ha & Hq & Hp). split_and!; auto.
        -- by rewrite filterStatus_lookup_ne, filterEndDate_lookup_ne,
             filterStartDate_lookup_ne.
    + apply dec_stable in Hasked.
      destruct (listing env (filterStatus c (filterEndDate c (filterStartDate c ∅)))
                  "startTime" (-1) (mongo.appointments db) Hf0 Hf1) as (s & Hs & Hlist).
      destruct (Find _ _ _ _ _ _) as [cursor|]; [|done]. simpl in Hs. rewrite Hs.
      exists (default [] s). split; [by destruct s|]. intros a.
      rewrite Hlist, elem_of_sortBy, elem_of_find, query_matches by done.
      rewrite matches_empty. split; [|tauto]. intros (Ha & Hq & _).
      split_and!; [done|done|]. intros pID HpID. by rewrite Hasked in HpID.
Qed.

Lemma sortBy_startTime_sorted dir (docs : list models.Appointment) :
  StronglySorted
    (λ a b, if dir =? 1 then models.StartTime a ≤ models.StartTime b
            else models.StartTime b ≤ models.StartTime a)
    (mongo.sortBy "startTime" dir docs).
Proof.
  unfold mongo.sortBy.
  assert (Htrans : Transitive (mongo.ordered (A := models.Appointment) "startTime" dir)).
  { intros a b c'. unfold mongo.ordered. simpl. destruct (dir =? 1); lia. }
  assert (Htotal : Total (mongo.ordered (A := models.Appointment) "startTime" dir)).
  { intros a b. unfold mongo.ordered. simpl. destruct (dir =? 1); lia. }
  exact (StronglySorted_merge_sort (mongo.ordered "startTime" dir) docs).
Qed.

Lemma listed_is_cursor env filter key dir (docs : list models.Appointment) cursor s l :
  Find env 0 filter key dir docs = Some cursor →
  All env 1 cursor None = Some s →
  match s with None => Some [] | Some _ => s end = Some l →
  l = mongo.sortBy key dir (mongo.find filter docs).
Proof.
  unfold Find, All. destruct (storeFault env 0); [done|].
  destruct (storeFault env 1); [done|]. intros [= <-] [= <-].
  unfold mongo.All. destruct (mongo.sortBy key dir (mongo.find filter docs)); congruence.
Qed.

(** X7.  The list of [GET /api/appointments] is in ascending order of
    start time, that of [GET /api/appointment/user/:id] in descending
    order. *)
Theorem lists_are_sorted env c db l :
  (response (GetAppointments env c db)
     = gin.JSON http.StatusOK (gin.Appointments (Some l)) →
   StronglySorted (λ a b, models.StartTime a ≤ models.StartTime b) l) ∧
  (response (GetAppointment env c db)
     = gin.JSON http.StatusOK (gin.Appointments (Some l)) →
   StronglySorted (λ a b, models.StartTime b ≤ models.StartTime a) l).
Proof.
  split.
  - unfold GetAppointments.
    destruct (Find _ _ _ _ _ _) as [cursor|] eqn:Hfind; [|done].
    destruct (All _ _ _ _) as [s|] eqn:Hall; [|done].
    intros [= ->]. rewrite (listed_is_cursor _ _ _ _ _ _ _ l Hfind Hall eq_refl).
    apply (sortBy_startTime_sorted 1).
  - unfold GetAppointment.
    destruct (if decide (gin.userRole c = "client") then _ else _) as [filter|]; [|done].
    destruct (Find _ _ _ _ _ _) as [cursor|] eqn:Hfind; [|done].
    destruct (All _ _ _ _) as [s|] eqn:Hall; [|done].
    intros [= Hl]. rewrite (listed_is_cursor _ _ _ _ _ _ _ l Hfind Hall Hl).
    apply (sortBy_startTime_sorted (-1)).
Qed.

(** ** Notifications *)

Lemma findOne_first {A} `{bson.Document A} filter (before after : list A) d :
  (∀ d', d' ∈ before → bson.matches filter d' = false) →
  bson.matches filter d = true →
  mongo.findOne filter (app before (d :: after)) = Some d.
Proof.
  intros Hbefore Hd. unfold mongo.findOne, mongo.find.
  induction before as [|d0 before IH]; simpl.
  - by rewrite Hd.
  - rewrite (Hbefore d0 (list_elem_of_here _ _)). apply IH.
    intros d' Hd'. apply Hbefore. by apply list_elem_of_further.
Qed.

Lemma sent_to_patient patient apt sms :
  sms ∈ services.SendAppointmentConfirmationSMS patient apt →
  services.to sms = models.Phone patient ∧ models.Phone patient ≠ "" ∧
  services.patientName sms = models.FullName patient ∧
  services.service sms = models.Service apt ∧
  services.startTime sms = models.StartTime apt.
Proof.
  unfold services.SendAppointmentConfirmationSMS.
  destruct (decide (models.Phone patient = "")) as [|Hphone].
  - intros Hin. by apply elem_of_nil in Hin.
  - intros Hin. apply list_elem_of_singleton in Hin as ->. by split_and!.
Qed.

(** What a successful cancellation did. *)
Lemma CancelAppointment_done env c db :
  gin.code (response (CancelAppointment env c db)) = http.StatusOK →
  ∃ before apt after,
    (gin.userRole c = "dentist" ∨ gin.userRole c = "staff") ∧
    models.ID apt = (primitive.ObjectIDFromHex (gin.Param c "id")).1 ∧
    (primitive.ObjectIDFromHex (gin.Param c "id")).2 = None ∧
    mongo.appointments db = app before (apt :: after) ∧
    (∀ a, a ∈ before → models.ID a ≠ models.ID apt) ∧
    database (CancelAppointment env c db)
      = {| mongo.users := mongo.users db;
           mongo.appointments := app before (withStatus "Cancelled" apt :: after) |} ∧
    dispatched (CancelAppointment env c db)
      = match FindOne env 2 (byID (models.PatientID apt)) (mongo.users db) with
        | Some patient =>
            services.SendAppointmentConfirmationSMS patient (withStatus "Cancelled" apt)
        | None => []
        end.
Proof.
  remember (CancelAppointment env c db) as r eqn:Hr. revert Hr.
  unfold CancelAppointment.
  destruct (bool_decide _) eqn:Hrole; [by intros ->|].
  apply bool_decide_eq_false in Hrole.
  destruct (primitive.ObjectIDFromHex _) as [appointmentID [err|]]; [by intros ->|].
  unfold FindOne at 1. destruct (storeFault env 0); [by intros ->|].
  destruct (mongo.findOne _ _) as [apt|] eqn:Hfind; [|by intros ->].
  unfold UpdateOne. destruct (storeFault env 1); [by intros ->|].
  destruct (findOne_Some _ _ _ Hfind) as (before & after & Hdocs & Hm & Hbefore).
  apply matches_byID_appointment in Hm.
  rewrite Hdocs, updateOne_first, set_status_cancelled;
    [|done|by apply matches_byID_appointment].
  intros -> _. exists before, apt, after. simpl. split_and!; try done.
  - destruct (decide (gin.userRole c = "dentist")); [by left|].
    destruct (decide (gin.userRole c = "staff")); [by right|]. by destruct Hrole.
  - intros a Ha Heq. apply Hbefore in Ha. apply not_true_iff_false in Ha.
    apply Ha, matches_byID_appointment. congruence.
Qed.

(** X8.  A message is only ever dispatched to the phone of a stored user
    who has one, about an appointment of which this user is the patient and
    which is in the database after the request; a request dispatches at
    most one message. *)
Theorem messages_go_to_patients `{utils.Crypto} env request db :
  (length (dispatched (serve env request db)) ≤ 1)%nat ∧
  ∀ sms, sms ∈ dispatched (serve env request db) →
    ∃ patient a,
      patient ∈ mongo.users db ∧
      a ∈ mongo.appointments (database (serve env request db)) ∧
      models.PatientID a = models.User_ID patient ∧
      services.to sms = models.Phone patient ∧ models.Phone patient ≠ "" ∧
      services.patientName sms = models.FullName patient ∧
      services.service sms = models.Service a ∧
      services.startTime sms = models.StartTime a.
Proof.
  assert (Hone : ∀ patient apt,
            (length (services.SendAppointmentConfirmationSMS patient apt) ≤ 1)%nat).
  { intros patient apt. unfold services.SendAppointmentConfirmationSMS.
    destruct (decide _); simpl; lia. }
  assert (Hnone : ∀ P : services.SMS → Prop,
            (0 ≤ 1)%nat ∧ ∀ sms, sms ∈ @nil services.SMS → P sms).
  { intros P. split; [lia|]. intros sms Hin. by apply elem_of_nil in Hin. }
  destruct request as [body|body|authHeader params queries route]; simpl.
  - unfold RegisterUser. repeat case_match; apply Hnone.
  - unfold Login. repeat case_match; apply Hnone.
  - destruct (middleware.AuthMiddleware _ _ _ _) as [aborted|c]; [apply Hnone|].
    destruct route as [|body| |body| | |body]; simpl.
    + unfold GetAppointments. repeat case_match; apply Hnone.
    + unfold CreateAppointment.
      destruct body as [req|]; [|apply Hnone].
      destruct (time.ParseRFC3339 (req_StartTime req)) as [startTime|]; [|apply Hnone].
      destruct (time.ParseRFC3339 (req_EndTime req)) as [endTime|]; [|apply Hnone].
      destruct (decide (gin.userRole c ≠ "client")); [apply Hnone|].
      unfold FindOne. destruct (storeFault env 0); [apply Hnone|].
      destruct (mongo.findOne _ _) as [patient|] eqn:Hfind; [|apply Hnone].
      destruct (InsertOne _ _ _ _ _) as [appointments|err] eqn:Hinsert; [|apply Hnone].
      unfold InsertOne in Hinsert. destruct (storeFault env 1); [done|].
      destruct (mongo.insertOne _ _ _) as [docs|] eqn:Hins; [|done].
      injection Hinsert as <-. apply insertOne_Some in Hins as [-> _].
      simpl. split; [apply Hone|]. intros sms Hsms.
      destruct (findOne_Some _ _ _ Hfind) as (before & after & Husers & Hm & _).
      apply matches_byID_user in Hm.
      eexists patient, _. split_and!.
      * rewrite Husers. apply elem_of_app. right. apply list_elem_of_here.
      * apply elem_of_app. right. apply list_elem_of_here.
      * simpl. by rewrite Hm.
      * by apply (sent_to_patient _ _ _ Hsms).
      * by apply (sent_to_patient _ _ _ Hsms).
      * by apply (sent_to_patient _ _ _ Hsms).
      * by apply (sent_to_patient _ _ _ Hsms).
      * by apply (sent_to_patient _ _ _ Hsms).
    + unfold GetAppointment. repeat case_match; apply Hnone.
    + unfold UpdateAppointment. repeat case_match; apply Hnone.
    + destruct (decide (gin.code (response (CancelAppointment env c db)) = http.StatusOK))
        as [Hok|Hfailed].
      * destruct (CancelAppointment_done _ _ _ Hok)
          as (before & apt & after & _ & _ & _ & Hdocs & _ & Hdb & Hsent).
        rewrite Hdb, Hsent. unfold FindOne. destruct (storeFault env 2); [apply Hnone|].
        destruct (mongo.findOne _ _) as [patient|] eqn:Hfind; [|apply Hnone].
        split; [apply Hone|]. intros sms Hsms.
        destruct (findOne_Some _ _ _ Hfind) as (ubefore & uafter & Husers & Hm & _).
        apply matches_byID_user in Hm.
        exists patient, (withStatus "Cancelled" apt). split_and!.
        -- rewrite Husers. apply elem_of_app. right. apply list_elem_of_here.
        -- simpl. apply elem_of_app. right. apply list_elem_of_here.
        -- by rewrite Hm.
        -- by apply (sent_to_patient _ _ _ Hsms).
        -- by apply (sent_to_patient _ _ _ Hsms).
        -- by apply (sent_to_patient _ _ _ Hsms).
        -- by apply (sent_to_patient _ _ _ Hsms).
        -- by apply (sent_to_patient _ _ _ Hsms).
      * revert Hfailed. unfold CancelAppointment.
        destruct (bool_decide _); [intros _; apply Hnone|].
        destruct (primitive.ObjectIDFromHex _) as [appointmentID [err|]];
          [intros _; apply Hnone|].
        destruct (FindOne env 0 _ _); [|intros _; apply Hnone].
        destruct (UpdateOne _ _ _ _ _) as [[appointments matched]|];
          [|intros _; apply Hnone].
        by intros Hfailed.
    + unfold GetCurrentUser. repeat case_match; apply Hnone.
    + unfold UpdateCurrentUser.
      destruct body as [reqFullName|]; [|apply Hnone].
      destruct (decide (size _ = 0%nat)); [apply Hnone|].
      destruct (UpdateOne _ _ _ _ _) as [[users matchedCount]|]; [|apply Hnone].
      destruct (matchedCount =? 0)%nat; apply Hnone.
Qed.

(** X9.  Whether the patient of a cancelled appointment can be looked up
    has no bearing on the cancellation: the response and the appointments
    are the same whatever users the store holds and whether or not it
    serves that lookup. *)
Theorem CancelAppointment_whatever_the_notification env env' c db users' :
  storeFault env' 0 = storeFault env 0 →
  storeFault env' 1 = storeFault env 1 →
  response (CancelAppointment env' c
              {| mongo.users := users'; mongo.appointments := mongo.appointments db |})
    = response (CancelAppointment env c db) ∧
  mongo.appointments
    (database (CancelAppointment env' c
                 {| mongo.users := users'; mongo.appointments := mongo.appointments db |}))
    = mongo.appointments (database (CancelAppointment env c db)).
Proof.
  intros Hf0 Hf1. unfold CancelAppointment, FindOne, UpdateOne. simpl.
  rewrite Hf0, Hf1.
  destruct (bool_decide _); [done|].
  destruct (primitive.ObjectIDFromHex _) as [appointmentID [err|]]; [done|].
  destruct (storeFault env 0); [done|].
  destruct (mongo.findOne _ _); [|done].
  destruct (storeFault env 1); [done|].
  by destruct (mongo.updateOne _ _ _).
Qed.

(** ** How cancelling and updating compose *)

(** X10.  Cancelling is idempotent: cancelling again an appointment that
    was just cancelled succeeds again and leaves the database as the first
    cancellation made it. *)
Theorem CancelAppointment_twice env env' c db :
  gin.code (response (CancelAppointment env c db)) = http.StatusOK →
  storeFault env' 0 = false → storeFault env' 1 = false →
  response (CancelAppointment env' c (database (CancelAppointment env c db)))
    = response (CancelAppointment env c db) ∧
  database (CancelAppointment env' c (database (CancelAppointment env c db)))
    = database (CancelAppointment env c db).
Proof.
  intros Hok Hf0 Hf1.
  destruct (CancelAppointment_done _ _ _ Hok)
    as (before & apt & after & Hrole & Hid & Herr & Hdocs & Hbefore & Hdb & _).
  rewrite Hdb.
  assert (Hresp : response (CancelAppointment env c db)
                  = gin.JSON http.StatusOK (gin.Message "Appointment cancelled successfully")).
  { revert Hok. unfold CancelAppointment. by repeat case_match. }
  rewrite Hresp. unfold CancelAppointment.
  rewrite (not_staffOnly _ Hrole).
  destruct (primitive.ObjectIDFromHex (gin.Param c "id")) as [appointmentID err].
  simpl in Hid, Herr. subst err.
  unfold FindOne, UpdateOne. rewrite Hf0, Hf1. simpl.
  assert (Hbefore' : ∀ a, a ∈ before → bson.matches (byID appointmentID) a = false).
  { apply no_match_byID. intros a Ha. rewrite <- Hid. by apply Hbefore. }
  assert (Hm : bson.matches (byID appointmentID) (withStatus "Cancelled" apt) = true)
    by by apply matches_byID_appointment.
  rewrite (findOne_first _ _ _ _ Hbefore' Hm), (updateOne_first _ _ _ _ _ Hbefore' Hm).
  rewrite set_status_cancelled. cbn [response database]. split; reflexivity.
Qed.

(** X11.  Cancelling is not final: an update by staff that supplies the
    former status brings the database back to what it was before the
    cancellation. *)
Theorem UpdateAppointment_reverts_cancel env env' c db apt :
  gin.code (response (CancelAppointment env c db)) = http.StatusOK →
  mongo.findOne (byID (primitive.ObjectIDFromHex (gin.Param c "id")).1)
    (mongo.appointments db) = Some apt →
  storeFault env' 0 = false →
  database (UpdateAppointment env' c
              (Some {| upd_StartTime := None; upd_EndTime := None; upd_Service := None;
                       upd_Status := Some (models.Status apt) |})
              (database (CancelAppointment env c db)))
    = db.
Proof.
  intros Hok Hfind Hf0.
  destruct (CancelAppointment_done _ _ _ Hok)
    as (before & apt' & after & Hrole & Hid & Herr & Hdocs & Hbefore & Hdb & _).
  assert (Hbefore' : ∀ a, a ∈ before →
            bson.matches (byID (primitive.ObjectIDFromHex (gin.Param c "id")).1) a = false).
  { apply no_match_byID. intros a Ha. rewrite <- Hid. by apply Hbefore. }
  assert (apt' = apt) as ->.
  { rewrite Hdocs, (findOne_first _ before after apt') in Hfind; [congruence|done|].
    by apply matches_byID_appointment. }
  rewrite Hdb. unfold UpdateAppointment. rewrite (not_staffOnly _ Hrole).
  destruct (primitive.ObjectIDFromHex (gin.Param c "id")) as [appointmentID err].
  simpl in Herr, Hbefore'. subst err.
  destruct (decide (size _ = 0%nat)) as [Hempty|_].
  { apply updateFieldsOf_empty in Hempty. by destruct Hempty as (_ & _ & _ & ?). }
  unfold UpdateOne. rewrite Hf0. simpl.
  rewrite updateOne_first, set_updateFieldsOf;
    [|done|by apply matches_byID_appointment].
  destruct db as [users appointments]. simpl in *. rewrite Hdocs. by destruct apt.
Qed.

(** ** Profiles *)

Lemma set_fullName name (u : models.User) :
  bson.set {[ "fullName" := bson.String name ]} u = renamed name u.
Proof. reflexivity. Qed.

Lemma no_match_byID_user oid (docs : list models.User) :
  (∀ u, u ∈ docs → models.User_ID u ≠ oid) →
  ∀ u, u ∈ docs → bson.matches (byID oid) u = false.
Proof.
  intros Hall u Hu. apply not_true_is_false.
  rewrite matches_byID_user. by apply Hall.
Qed.

Lemma fullName_update_set name :
  name ≠ "" →
  (if decide (name ≠ "")
   then <[ "fullName" := bson.String name ]> (∅ : gmap string bson.value)
   else ∅) = {[ "fullName" := bson.String name ]} ∧
  size ({[ "fullName" := bson.String name ]} : gmap string bson.value) ≠ 0%nat.
Proof.
  intros Hname. rewrite decide_True by done. split; [apply insert_empty|].
  by rewrite map_size_singleton.
Qed.

(** X12.  A caller who supplies a name renames their own record and
    nothing else: the other users, the other fields of the record and the
    appointments, which keep the patient name they were booked under, are
    as before, and the profile read back shows the new name. *)
Theorem UpdateCurrentUser_renames_caller env env' c name db uid before u after :
  name ≠ "" →
  primitive.ObjectIDFromHex (gin.userID c) = (uid, None) →
  mongo.users db = app before (u :: after) →
  models.User_ID u = uid →
  (∀ u', u' ∈ before → models.User_ID u' ≠ uid) →
  storeFault env 0 = false →
  let r := UpdateCurrentUser env c (Some name) db in
  response r = gin.JSON http.StatusOK (gin.Message "Profile updated successfully") ∧
  database r = {| mongo.users := app before (renamed name u :: after);
                  mongo.appointments := mongo.appointments db |} ∧
  (storeFault env' 0 = false →
   response (GetCurrentUser env' c (database r))
     = gin.JSON http.StatusOK (gin.OneUser (gin.userJSON (renamed name u)))).
Proof.
  intros Hname Hid Husers Hu Hbefore Hf0.
  assert (Hnone : ∀ u', u' ∈ before → bson.matches (byID uid) u' = false)
    by by apply no_match_byID_user.
  assert (Hm : bson.matches (byID uid) u = true) by by apply matches_byID_user.
  assert (Hr : UpdateCurrentUser env c (Some name) db
               = reply {| mongo.users := app before (renamed name u :: after);
                          mongo.appointments := mongo.appointments db |}
                   http.StatusOK (gin.Message "Profile updated successfully")).
  { unfold UpdateCurrentUser. destruct (fullName_update_set name Hname) as [-> Hsize].
    rewrite decide_False by done. unfold UpdateOne. rewrite Hf0, Hid, Husers. simpl fst.
    by rewrite (updateOne_first _ _ _ _ _ Hnone Hm), set_fullName. }
  intros r. subst r. rewrite Hr. split_and!; [done|done|].
  intros Hf0'. unfold GetCurrentUser, FindOne. rewrite Hid, Hf0'. simpl.
  by rewrite (findOne_first _ _ _ (renamed name u) Hnone)
    by by apply matches_byID_user.
Qed.

(** X13.  [GET /api/user/:id] shows a profile only of the user whose
    identifier is that of the session, whatever identifier the path
    names. *)
Theorem GetCurrentUser_own_profile env c db :
  (∀ params',
     GetCurrentUser env {| gin.userID := gin.userID c; gin.userRole := gin.userRole c;
                           gin.params := params'; gin.queries := gin.queries c |} db
     = GetCurrentUser env c db) ∧
  (∀ profile,
     response (GetCurrentUser env c db) = gin.JSON http.StatusOK (gin.OneUser profile) →
     ∃ u, u ∈ mongo.users db ∧
          primitive.ObjectIDFromHex (gin.userID c) = (models.User_ID u, None) ∧
          profile = gin.userJSON u).
Proof.
  split; [done|]. intros profile. unfold GetCurrentUser, FindOne.
  destruct (primitive.ObjectIDFromHex (gin.userID c)) as [uid [err|]]; [done|].
  destruct (storeFault env 0); [done|].
  destruct (mongo.findOne _ _) as [u|] eqn:Hfind; [|done].
  intros [= <-]. destruct (findOne_Some _ _ _ Hfind) as (before & after & Husers & Hm & _).
  apply matches_byID_user in Hm. exists u. split_and!; [|by rewrite Hm|done].
  rewrite Husers. apply elem_of_app. right. apply list_elem_of_here.
Qed.

(** X14.  A profile update with an empty name is refused as invalid; one
    for a session whose identifier no user carries is answered with
    NotFound; neither changes anything. *)
Theorem UpdateCurrentUser_refusals env c db :
  UpdateCurrentUser env c (Some "") db
    = reply db http.StatusBadRequest (gin.Error "No update fields provided") ∧
  (∀ name, name ≠ "" → storeFault env 0 = false →
     (∀ u, u ∈ mongo.users db →
           models.User_ID u ≠ (primitive.ObjectIDFromHex (gin.userID c)).1) →
     UpdateCurrentUser env c (Some name) db
       = reply db http.StatusNotFound (gin.Error "User not found")).
Proof.
  split; [done|]. intros name Hname Hf0 Hmissing. unfold UpdateCurrentUser.
  destruct (fullName_update_set name Hname) as [-> Hsize].
  rewrite decide_False by done. unfold UpdateOne. rewrite Hf0.
  rewrite updateOne_none by by apply no_match_byID_user.
  simpl. by destruct db.
Qed.

(** ** Sessions *)

Section Sessions.
Context `{utils.Crypto}.

(** X15.  A login is answered with a token only for a stored user who has
    the address of the request and whose hash accepts the password of the
    request; the token is signed with the configured secret and carries the
    identifier and the role of that user and an expiry 24 hours ahead. *)
Theorem Login_only_with_credentials env body db :
  gin.code (response (Login env body db)) = http.StatusOK →
  ∃ loginReq u,
    body = Some loginReq ∧
    u ∈ mongo.users db ∧
    models.Email u = login_Email loginReq ∧
    utils.CheckPasswordHash (login_Password loginReq) (models.Password u) = true ∧
    utils.jwtSecret ≠ "" ∧
    response (Login env body db)
      = gin.JSON http.StatusOK
          (gin.TokenAndUser
             (utils.signedString utils.jwtSecret
                {| utils.UserID := primitive.Hex (models.User_ID u);
                   utils.Role := models.Role u;
                   utils.ExpiresAt := time.Add (Now env) (24 * time.Hour) |})
             (gin.userJSON u)) ∧
    database (Login env body db) = db.
Proof.
  remember (Login env body db) as r eqn:Hr. revert Hr. unfold Login.
  destruct body as [loginReq|]; [|by intros ->].
  unfold FindOne. destruct (storeFault env 0); [by intros ->|].
  destruct (mongo.findOne _ _) as [u|] eqn:Hfind; [|by intros ->].
  destruct (utils.CheckPasswordHash _ _) eqn:Hcheck; [|by intros ->].
  unfold utils.GenerateJWT.
  destruct (String.length utils.jwtSecret =? 0)%nat eqn:Hsecret; [by intros ->|].
  simpl. intros -> _. exists loginReq, u.
  destruct (findOne_Some _ _ _ Hfind) as (before & after & Husers & Hm & _).
  apply matches_byEmail in Hm. split_and!; try done.
  - rewrite Husers. apply elem_of_app. right. apply list_elem_of_here.
  - intros Hempty. by rewrite Hempty in Hsecret.
Qed.

(** X16.  A request to a protected route that carries no authorization
    header, or a token that does not verify, is answered Unauthorized and
    reaches no handler: the database is as before and nothing is
    dispatched. *)
Theorem api_requires_valid_token env authHeader params queries route db :
  authHeader = "" ∨
  utils.ValidateJWT (Now env) (middleware.TrimPrefix authHeader "Bearer ") = None →
  kindOf (response (serve env (Api authHeader params queries route) db))
    = Some Unauthorized ∧
  database (serve env (Api authHeader params queries route) db) = db ∧
  dispatched (serve env (Api authHeader params queries route) db) = [].
Proof.
  intros Hbad. simpl. unfold middleware.AuthMiddleware.
  destruct (decide (authHeader = "")) as [|Hheader]; [done|].
  destruct Hbad as [|Hbad]; [done|]. by rewrite Hbad.
Qed.

(** X17.  Without a configured secret the server fails closed: no login
    yields a token, and every request to a protected route is answered
    Unauthorized and changes nothing. *)
Theorem unconfigured_secret_fails_closed env body authHeader params queries route db :
  utils.jwtSecret = "" →
  gin.code (response (Login env body db)) ≠ http.StatusOK ∧
  (∀ userID role, (utils.GenerateJWT (Now env) userID role).2 ≠ None) ∧
  kindOf (response (serve env (Api authHeader params queries route) db))
    = Some Unauthorized ∧
  database (serve env (Api authHeader params queries route) db) = db.
Proof.
  intros Hsecret.
  assert (Habort : middleware.AuthMiddleware (Now env) authHeader params queries
                   = inl (gin.JSON http.StatusUnauthorized
                            (gin.Error (if decide (authHeader = "")
                                        then "Authorization header required"
                                        else "Invalid token")))).
  { unfold middleware.AuthMiddleware, utils.ValidateJWT. rewrite Hsecret.
    by destruct (decide (authHeader = "")). }
  split_and!.
  - unfold Login, utils.GenerateJWT. rewrite Hsecret. by repeat case_match.
  - intros userID role. unfold utils.GenerateJWT. by rewrite Hsecret.
  - simpl. by rewrite Habort.
  - simpl. by rewrite Habort.
Qed.

End Sessions.

(** ** From registration to a session *)

Lemma fromHexChar_toHexChar v :
  (v < 16)%N → primitive.fromHexChar (primitive.toHexChar v) = Some v.
Proof.
  intros Hv.
  destruct v as [|p]; [reflexivity|].
  do 4 (destruct p as [p|p|]; try reflexivity); exfalso; lia.
Qed.

Lemma decode_hexDigits n o rest acc :
  primitive.decode acc (primitive.hexDigits n o rest)
  = primitive.decode (acc * 16 ^ N.of_nat n + o mod 16 ^ N.of_nat n)%N rest.
Proof.
  revert o rest acc. induction n as [|n IH]; intros o rest acc.
  - simpl. f_equal. rewrite N.mod_1_r. lia.
  - cbn [primitive.hexDigits]. rewrite IH. cbn [primitive.decode].
    rewrite fromHexChar_toHexChar by (apply N.mod_lt; lia). f_equal.
    rewrite Nat2N.inj_succ, N.pow_succ_r'.
    rewrite (N.Div0.mod_mul_r o 16 (16 ^ N.of_nat n)). lia.
Qed.

Lemma length_hexDigits n o rest :
  String.length (primitive.hexDigits n o rest) = (n + String.length rest)%nat.
Proof.
  revert o rest. induction n as [|n IH]; intros o rest; [done|].
  cbn [primitive.hexDigits]. rewrite IH. simpl. lia.
Qed.

(** The text of an identifier reads back as the identifier. *)
Lemma ObjectIDFromHex_Hex o :
  (o < 2 ^ 96)%N → primitive.ObjectIDFromHex (primitive.Hex o) = (o, None).
Proof.
  intros Ho. unfold primitive.ObjectIDFromHex, primitive.Hex.
  rewrite length_hexDigits, decode_hexDigits. simpl String.length.
  change (24 + 0 =? 24)%nat with true. cbn [primitive.decode].
  rewrite N.mod_small; [done|]. change (16 ^ N.of_nat 24)%N with (2 ^ 96)%N. exact Ho.
Qed.

Lemma substring_all s : String.substring 0 (String.length s) s = s.
Proof. induction s as [|ch s IH]; simpl; [done|]. by rewrite IH. Qed.

Lemma TrimPrefix_app prefix s :
  middleware.TrimPrefix (String.append prefix s) prefix = s.
Proof.
  unfold middleware.TrimPrefix.
  assert (Hprefix : String.prefix prefix (String.append prefix s) = true).
  { induction prefix as [|ch prefix IH]; simpl; [by destruct s|].
    by destruct (Ascii.ascii_dec ch ch). }
  rewrite Hprefix. clear Hprefix.
  induction prefix as [|ch prefix IH]; simpl.
  - rewrite Nat.sub_0_r. apply substring_all.
  - exact IH.
Qed.

Lemma findOne_last {A} `{bson.Document A} filter (docs : list A) d :
  (∀ d', d' ∈ docs → bson.matches filter d' = false) →
  bson.matches filter d = true →
  mongo.findOne filter (app docs [d]) = Some d.
Proof. intros. by apply findOne_first. Qed.

(** X18.  A user who registers can log in with the same address and
    password, as long as the hash accepts the password it was made from and
    a secret is configured; if the token verifies when it is presented, the
    protected profile route shows the registered profile, with the role
    asked for at registration. *)
Theorem register_login_session `{utils.Crypto}
    env1 env2 env3 req db hashedPassword params queries :
  validate req = None →
  utils.HashPassword (reg_Password req) = (hashedPassword, None) →
  utils.CheckPasswordHash (reg_Password req) hashedPassword = true →
  utils.jwtSecret ≠ "" →
  (NewObjectID env1 < 2 ^ 96)%N →
  (∀ u, u ∈ mongo.users db →
        models.User_ID u ≠ NewObjectID env1 ∧ models.Email u ≠ reg_Email req) →
  storeFault env1 0 = false → storeFault env2 0 = false → storeFault env3 0 = false →
  let role := if decide (reg_Role req = "") then "client" else reg_Role req in
  let claims := {| utils.UserID := primitive.Hex (NewObjectID env1);
                   utils.Role := role;
                   utils.ExpiresAt := time.Add (Now env2) (24 * time.Hour) |} in
  let token := utils.signedString utils.jwtSecret claims in
  utils.parseWithClaims utils.jwtSecret token (Now env3) = Some claims →
  let profile := {| gin.id := NewObjectID env1; gin.fullName := reg_FullName req;
                    gin.email := reg_Email req; gin.role := role;
                    gin.phone := reg_Phone req |} in
  let db' := database (serve env1 (POST_auth_register (inl req)) db) in
  response (serve env1 (POST_auth_register (inl req)) db)
    = gin.JSON http.StatusCreated (gin.OneUser profile) ∧
  response (serve env2 (POST_auth_login
                          (Some {| login_Email := reg_Email req;
                                   login_Password := reg_Password req |})) db')
    = gin.JSON http.StatusOK (gin.TokenAndUser token profile) ∧
  response (serve env3 (Api ("Bearer " ++ token) params queries GET_user) db')
    = gin.JSON http.StatusOK (gin.OneUser profile).
Proof.
  intros Hvalid Hhash Hcheck Hsecret Hoid Hfresh Hf1 Hf2 Hf3 role claims token Hparse
    profile db'.
  set (user := {| models.User_ID := NewObjectID env1;
                  models.FullName := reg_FullName req;
                  models.Email := reg_Email req;
                  models.Password := hashedPassword;
                  models.Role := role;
                  models.Phone := reg_Phone req |}).
  assert (Hregister : serve env1 (POST_auth_register (inl req)) db
                      = reply {| mongo.users := app (mongo.users db) [user];
                                 mongo.appointments := mongo.appointments db |}
                          http.StatusCreated (gin.OneUser profile)).
  { simpl. unfold RegisterUser, InsertOne. rewrite Hvalid, Hhash, Hf1.
    by rewrite insertOne_fresh_user by done. }
  subst db'. rewrite Hregister. simpl database. split_and!; [done| |].
  - simpl. unfold Login, FindOne. rewrite Hf2. simpl.
    rewrite findOne_last.
    + simpl. rewrite Hcheck. simpl. unfold utils.GenerateJWT.
      destruct (String.length utils.jwtSecret =? 0)%nat eqn:Hlen; [|done].
      apply Nat.eqb_eq in Hlen. by destruct utils.jwtSecret.
    + intros u Hu. apply not_true_is_false. rewrite matches_byEmail.
      by apply Hfresh.
    + by apply matches_byEmail.
  - simpl. unfold middleware.AuthMiddleware. rewrite decide_False by done.
    rewrite TrimPrefix_app. unfold utils.ValidateJWT.
    destruct (String.length utils.jwtSecret =? 0)%nat eqn:Hlen.
    { apply Nat.eqb_eq in Hlen. by destruct utils.jwtSecret. }
    fold token. rewrite Hparse. cbv beta iota. cbn [dispatch].
    unfold GetCurrentUser, FindOne. unfold claims at 1. cbn [gin.userID utils.UserID].
    rewrite ObjectIDFromHex_Hex, Hf3 by done. cbn [mongo.users].
    rewrite findOne_last; [done| |by apply matches_byID_user].
    apply no_match_byID_user. intros u Hu. by apply Hfresh.
Qed.

(** X19.  The uniqueness of e-mail addresses is left to the store.  A
    registration that passes the binding checks and the hashing, under an
    address that a stored user already has, is answered with Conflict and
    stores nothing when the store has the unique index on addresses; on a
    store without that index, which the program itself does not create, it
    is answered 201 and a second user with the same address is stored. *)
Theorem RegisterUser_conflict `{utils.Crypto} env req db hashedPassword u :
  validate req = None →
  utils.HashPassword (reg_Password req) = (hashedPassword, None) →
  storeFault env 0 = false →
  u ∈ mongo.users db → models.Email u = reg_Email req →
  (uniqueEmails env = true →
   RegisterUser env (inl req) db
     = reply db http.StatusConflict
         (gin.Error "An account with this email already exists") ∧
   kindOf (response (RegisterUser env (inl req) db)) = Some Conflict) ∧
  (uniqueEmails env = false →
   (∀ u', u' ∈ mongo.users db → models.User_ID u' ≠ NewObjectID env) →
   gin.code (response (RegisterUser env (inl req) db)) = http.StatusCreated ∧
   ∃ user, mongo.users (database (RegisterUser env (inl req) db))
             = app (mongo.users db) [user] ∧
           models.Email user = models.Email u).
Proof.
  intros Hvalid Hhash Hf0 Hu Hemail. split.
  - intros Hindex.
    assert (Hr : RegisterUser env (inl req) db
                 = reply db http.StatusConflict
                     (gin.Error "An account with this email already exists")).
    { unfold RegisterUser, InsertOne, mongo.insertOne.
      rewrite Hvalid, Hhash, Hf0, Hindex.
      replace (mongo.duplicateKey _ _ _) with true; [done|].
      symmetry. unfold mongo.duplicateKey. apply existsb_exists.
      exists u. split; [by apply list_elem_of_In|].
      apply existsb_exists. exists "email". split; [right; by left|].
      apply bool_decide_eq_true. simpl. by rewrite Hemail. }
    by rewrite Hr.
  - intros Hindex Hid.
    unfold RegisterUser, InsertOne, mongo.insertOne.
    rewrite Hvalid, Hhash, Hf0, Hindex.
    replace (mongo.duplicateKey _ _ _) with false.
    + simpl. split; [done|]. eexists. split; [reflexivity|]. simpl. by rewrite Hemail.
    + symmetry. apply not_true_is_false. unfold mongo.duplicateKey.
      rewrite existsb_exists. intros (u' & Hu' & Hdup).
      apply list_elem_of_In, Hid in Hu'. simpl in Hdup. rewrite orb_false_r in Hdup.
      apply bool_decide_eq_true in Hdup. congruence.
Qed.

(** X20.  A client whose session identifier no stored user carries, be it
    well-formed or not, cannot book: the lookup fails, the answer is an
    internal error, and nothing is persisted or dispatched. *)
Theorem CreateAppointment_unknown_patient env c req db startTime endTime :
  gin.userRole c = "client" →
  time.ParseRFC3339 (req_StartTime req) = Some startTime →
  time.ParseRFC3339 (req_EndTime req) = Some endTime →
  (∀ u, u ∈ mongo.users db →
        models.User_ID u ≠ (primitive.ObjectIDFromHex (gin.userID c)).1) →
  CreateAppointment env c (Some req) db
    = reply db http.StatusInternalServerError (gin.Error "Could not find user details") ∧
  kindOf (response (CreateAppointment env c (Some req) db)) = Some Internal.
Proof.
  intros Hrole Hstart Hend Hmissing.
  assert (Hr : CreateAppointment env c (Some req) db
               = reply db http.StatusInternalServerError
                   (gin.Error "Could not find user details")).
  { unfold CreateAppointment, FindOne. rewrite Hstart, Hend.
    rewrite decide_False by (by intros Hne). destruct (storeFault env 0); [done|].
    by rewrite (proj2 (findOne_None _ _) (no_match_byID_user _ _ Hmissing)). }
  by rewrite Hr.
Qed.

(** ** What a success implies *)

(** X21.  An account is created only from a request that passes the
    binding checks (name, address and phone present, address well formed,
    password of at least eight characters) and whose generated identifier
    no stored user has; its address is new as well when the store has the
    unique index on addresses.  The record stored holds the hash of the
    password, never the password of the request as such. *)
Theorem RegisterUser_created_only_if `{utils.Crypto} env body db :
  gin.code (response (RegisterUser env body db)) = http.StatusCreated →
  ∃ req hashedPassword,
    body = inl req ∧
    validate req = None ∧
    (8 ≤ runeCount (reg_Password req))%nat ∧
    utils.isEmail (reg_Email req) = true ∧
    utils.HashPassword (reg_Password req) = (hashedPassword, None) ∧
    (∀ u, u ∈ mongo.users db → models.User_ID u ≠ NewObjectID env) ∧
    (uniqueEmails env = true →
     ∀ u, u ∈ mongo.users db → models.Email u ≠ reg_Email req) ∧
    mongo.users (database (RegisterUser env body db))
      = app (mongo.users db)
          [ {| models.User_ID := NewObjectID env;
               models.FullName := reg_FullName req;
               models.Email := reg_Email req;
               models.Password := hashedPassword;
               models.Role := if decide (reg_Role req = "") then "client" else reg_Role req;
               models.Phone := reg_Phone req |} ].
Proof.
  remember (RegisterUser env body db) as r eqn:Hr. revert Hr.
  unfold RegisterUser, InsertOne.
  destruct body as [req|err]; [|by intros ->].
  destruct (validate req) as [err|] eqn:Hvalid; [by intros ->|].
  destruct (utils.HashPassword _) as [hashedPassword [err|]] eqn:Hhash; [by intros ->|].
  destruct (storeFault env 0); [by intros ->|].
  destruct (mongo.insertOne _ _ _) as [users|] eqn:Hinsert; [|by intros ->].
  intros -> _. apply insertOne_user_fresh in Hinsert as (-> & Hid & Haddress).
  destruct (validate_complete _ Hvalid) as (_ & _ & _ & Hemail & Hlen).
  exists req, hashedPassword. by split_and!.
Qed.

Lemma RegisterUser_created_only_if_witness :
  ∃ req hashedPassword,
    @inl RegisterUserRequest error mallory = inl req ∧
    @utils.HashPassword Clinic.crypto (reg_Password req)
      = (hashedPassword, None).
Proof.
  destruct (@RegisterUser_created_only_if Clinic.crypto Clinic.env (inl mallory) Clinic.db)
    as (req & hashedPassword & Hbody & _ & _ & _ & Hhash & _); [reflexivity|].
  exists req, hashedPassword. split; assumption.
Defined.

(** X22.  A caller who is neither dentist nor staff cannot alter or remove
    a stored appointment by any protected route: the appointments after the
    request begin with the appointments before it, unchanged. *)
Theorem only_staff_alter_appointments env c route db :
  gin.userRole c ≠ "dentist" → gin.userRole c ≠ "staff" →
  mongo.appointments db
    `prefix_of` mongo.appointments (database (dispatch env c route db)).
Proof.
  intros Hd Hs. destruct route as [|body| |body| | |body]; simpl.
  - unfold GetAppointments. by repeat case_match.
  - unfold CreateAppointment, InsertOne, mongo.insertOne.
    repeat case_match; simpl; try done. simplify_eq. by apply prefix_app_r.
  - unfold GetAppointment. by repeat case_match.
  - unfold UpdateAppointment. by rewrite (is_other_role _ Hd Hs).
  - unfold CancelAppointment. by rewrite (is_other_role _ Hd Hs).
  - unfold GetCurrentUser. by repeat case_match.
  - unfold UpdateCurrentUser.
    destruct body as [reqFullName|]; [|done].
    destruct (decide (size _ = 0%nat)); [done|].
    destruct (UpdateOne _ _ _ _ _) as [[users matchedCount]|]; [|done].
    by destruct (matchedCount =? 0)%nat.
Qed.

Lemma only_staff_alter_appointments_witness :
  mongo.appointments Clinic.db
    `prefix_of` mongo.appointments
      (database (dispatch Clinic.env (Clinic.session Clinic.alice "" [])
                   (POST_appointments
                      (Some {| req_StartTime := "2024-08-01T10:00:00Z";
                               req_EndTime := "2024-08-01T10:30:00Z";
                               req_Service := "Filling" |})) Clinic.db)).
Proof.
  apply (only_staff_alter_appointments Clinic.env (Clinic.session Clinic.alice "" []));
    discriminate.
Defined.

(** ** The properties above on the sample data *)

Lemma serveAll_consistent_witness :
  consistent (@serveAll Clinic.crypto
                [(Clinic.env, POST_auth_register (inl mallory));
                 (Clinic.env, POST_auth_register (inl mallory))] emptyDb) ∧
  NoDup (models.Email <$> mongo.users
           (@serveAll Clinic.crypto
              [(Clinic.env, POST_auth_register (inl mallory));
               (Clinic.env, POST_auth_register (inl mallory))] emptyDb)).
Proof.
  destruct (@serveAll_consistent Clinic.crypto
              [(Clinic.env, POST_auth_register (inl mallory));
               (Clinic.env, POST_auth_register (inl mallory))] emptyDb)
    as [Hconsistent Hemails].
  - constructor; simpl; try apply NoDup_nil_2; intros x Hin; by apply elem_of_nil in Hin.
  - split; [exact Hconsistent|]. apply Hemails; [|apply NoDup_nil_2].
    intros env request Hin.
    repeat (apply elem_of_cons in Hin as [[= -> ->]|Hin]; [reflexivity|]).
    by apply elem_of_nil in Hin.
Defined.

Lemma GetAppointments_exact_witness :
  ∃ s, response (GetAppointments Clinic.env
                   (Clinic.session Clinic.alice "" [("startDate", "2024-07-02")]) Clinic.db)
         = gin.JSON http.StatusOK (gin.Appointments s) ∧
       ∀ a, a ∈ default [] s ↔
            a ∈ mongo.appointments Clinic.db ∧
            inQuery (Clinic.session Clinic.alice "" [("startDate", "2024-07-02")]) a.
Proof. apply GetAppointments_exact; reflexivity. Defined.

Lemma GetAppointment_exact_witness :
  ∃ l, response (GetAppointment Clinic.env
                   (Clinic.session Clinic.alice "" [("status", "Scheduled")]) Clinic.db)
         = gin.JSON http.StatusOK (gin.Appointments (Some l)) ∧
       ∀ a, a ∈ l ↔
            a ∈ mongo.appointments Clinic.db ∧
            inQuery (Clinic.session Clinic.alice "" [("status", "Scheduled")]) a ∧
            inScope (Clinic.session Clinic.alice "" [("status", "Scheduled")]) a.
Proof. apply GetAppointment_exact; [reflexivity | reflexivity | intros _; reflexivity]. Defined.

Lemma lists_are_sorted_witness :
  StronglySorted (λ a b, models.StartTime a ≤ models.StartTime b)
    [Clinic.checkup; Clinic.cleaning] ∧
  StronglySorted (λ a b, models.StartTime b ≤ models.StartTime a)
    [Clinic.cleaning; Clinic.checkup].
Proof.
  split.
  - apply (proj1 (lists_are_sorted Clinic.env (Clinic.session Clinic.drwho "" [])
                    Clinic.db [Clinic.checkup; Clinic.cleaning])). reflexivity.
  - apply (proj2 (lists_are_sorted Clinic.env (Clinic.session Clinic.drwho "" [])
                    Clinic.db [Clinic.cleaning; Clinic.checkup])). reflexivity.
Defined.

Lemma CancelAppointment_whatever_the_notification_witness :
  response (CancelAppointment
              {| storeFault := λ k, bool_decide (k = 2%nat); uniqueEmails := true;
                 NewObjectID := 100%N; Now := 0 |}
              (Clinic.session Clinic.drwho (primitive.Hex 10%N) [])
              {| mongo.users := []; mongo.appointments := mongo.appointments Clinic.db |})
    = response (CancelAppointment Clinic.env
                  (Clinic.session Clinic.drwho (primitive.Hex 10%N) []) Clinic.db).
Proof.
  apply (CancelAppointment_whatever_the_notification Clinic.env
           {| storeFault := λ k, bool_decide (k = 2%nat); uniqueEmails := true;
                 NewObjectID := 100%N; Now := 0 |}
           (Clinic.session Clinic.drwho (primitive.Hex 10%N) []) Clinic.db []);
    reflexivity.
Defined.

Lemma CancelAppointment_twice_witness :
  database (CancelAppointment Clinic.env (Clinic.session Clinic.drwho (primitive.Hex 10%N) [])
              (database (CancelAppointment Clinic.env
                           (Clinic.session Clinic.drwho (primitive.Hex 10%N) []) Clinic.db)))
    = database (CancelAppointment Clinic.env
                  (Clinic.session Clinic.drwho (primitive.Hex 10%N) []) Clinic.db).
Proof.
  apply (CancelAppointment_twice Clinic.env Clinic.env
           (Clinic.session Clinic.drwho (primitive.Hex 10%N) []) Clinic.db); reflexivity.
Defined.

Lemma UpdateAppointment_reverts_cancel_witness :
  database (UpdateAppointment Clinic.env (Clinic.session Clinic.drwho (primitive.Hex 10%N) [])
              (Some {| upd_StartTime := None; upd_EndTime := None; upd_Service := None;
                       upd_Status := Some (models.Status Clinic.checkup) |})
              (database (CancelAppointment Clinic.env
                           (Clinic.session Clinic.drwho (primitive.Hex 10%N) []) Clinic.db)))
    = Clinic.db.
Proof.
  apply (UpdateAppointment_reverts_cancel Clinic.env Clinic.env
           (Clinic.session Clinic.drwho (primitive.Hex 10%N) []) Clinic.db Clinic.checkup);
    reflexivity.
Defined.

Lemma UpdateCurrentUser_renames_caller_witness :
  database (UpdateCurrentUser Clinic.env (Clinic.session Clinic.alice "" [])
              (Some "Alice Durand") Clinic.db)
    = {| mongo.users := [renamed "Alice Durand" Clinic.alice; Clinic.bob; Clinic.drwho];
         mongo.appointments := [Clinic.checkup; Clinic.cleaning] |} ∧
  models.PatientName Clinic.cleaning = "Alice Martin".
Proof.
  split; [|reflexivity].
  apply (UpdateCurrentUser_renames_caller Clinic.env Clinic.env
           (Clinic.session Clinic.alice "" []) "Alice Durand" Clinic.db 1%N
           [] Clinic.alice [Clinic.bob; Clinic.drwho]);
    [discriminate | reflexivity | reflexivity | reflexivity | not_listed | reflexivity].
Defined.

Lemma Login_only_with_credentials_witness :
  ∃ loginReq u,
    Some {| login_Email := "alice@example.com"; login_Password := "wonderland1" |}
      = Some loginReq ∧
    u ∈ mongo.users Clinic.db ∧ models.Email u = login_Email loginReq.
Proof.
  destruct (@Login_only_with_credentials Clinic.crypto Clinic.env
              (Some {| login_Email := "alice@example.com";
                       login_Password := "wonderland1" |}) Clinic.db)
    as (loginReq & u & Hbody & Hu & Hemail & _); [reflexivity|].
  exists loginReq, u. split_and!; assumption.
Defined.

Lemma api_requires_valid_token_witness :
  kindOf (response (@serve Clinic.crypto Clinic.env
                      (Api "Bearer forged" {[ "id" := primitive.Hex 10%N ]} ∅
                         PATCH_appointments_cancel) Clinic.db)) = Some Unauthorized ∧
  database (@serve Clinic.crypto Clinic.env
              (Api "Bearer forged" {[ "id" := primitive.Hex 10%N ]} ∅
                 PATCH_appointments_cancel) Clinic.db) = Clinic.db.
Proof.
  destruct (@api_requires_valid_token Clinic.crypto Clinic.env "Bearer forged"
              {[ "id" := primitive.Hex 10%N ]} ∅ PATCH_appointments_cancel Clinic.db)
    as (Hkind & Hdb & _); [right; reflexivity|].
  split; assumption.
Defined.

Lemma unconfigured_secret_fails_closed_witness :
  gin.code (response (@Login unconfiguredCrypto Clinic.env
                        (Some {| login_Email := "alice@example.com";
                                 login_Password := "wonderland1" |}) Clinic.db))
    ≠ http.StatusOK ∧
  kindOf (response (@serve unconfiguredCrypto Clinic.env
                      (Api "Bearer anything" ∅ ∅ GET_appointments) Clinic.db))
    = Some Unauthorized.
Proof.
  destruct (@unconfigured_secret_fails_closed unconfiguredCrypto Clinic.env
              (Some {| login_Email := "alice@example.com";
                       login_Password := "wonderland1" |})
              "Bearer anything" ∅ ∅ GET_appointments Clinic.db)
    as (Hlogin & _ & Hkind & _); [reflexivity|].
  split; assumption.
Defined.

Lemma register_login_session_witness :
  response (@serve sessionCrypto Clinic.env
              (Api ("Bearer " ++ utils.signedString (Crypto := sessionCrypto)
                                   "secret" malloryClaims) ∅ ∅ GET_user)
              (database (@serve sessionCrypto Clinic.env
                           (POST_auth_register (inl mallory)) Clinic.db)))
    = gin.JSON http.StatusOK
        (gin.OneUser {| gin.id := 100%N; gin.fullName := "Mallory";
                        gin.email := "m@example.com"; gin.role := "dentist";
                        gin.phone := "+15550009" |}).
Proof.
  destruct (@register_login_session sessionCrypto Clinic.env Clinic.env Clinic.env
              mallory Clinic.db "bcrypt:longenough1" ∅ ∅) as (_ & _ & Hprofile);
    [reflexivity | reflexivity | reflexivity | discriminate | reflexivity
    | not_listed | reflexivity | reflexivity | reflexivity | reflexivity | ].
  exact Hprofile.
Defined.

Lemma RegisterUser_conflict_witness :
  kindOf (response (@RegisterUser Clinic.crypto Clinic.env
                      (inl {| reg_FullName := "Alice Again";
                              reg_Email := "alice@example.com";
                              reg_Password := "wonderland2"; reg_Role := "";
                              reg_Phone := "+15550001" |}) Clinic.db)) = Some Conflict ∧
  gin.code (response (@RegisterUser Clinic.crypto
                        {| storeFault := λ _, false; uniqueEmails := false;
                           NewObjectID := 100%N; Now := 0 |}
                        (inl {| reg_FullName := "Alice Again";
                                reg_Email := "alice@example.com";
                                reg_Password := "wonderland2"; reg_Role := "";
                                reg_Phone := "+15550001" |}) Clinic.db))
    = http.StatusCreated.
Proof.
  split.
  - destruct (@RegisterUser_conflict Clinic.crypto Clinic.env
                {| reg_FullName := "Alice Again"; reg_Email := "alice@example.com";
                   reg_Password := "wonderland2"; reg_Role := "";
                   reg_Phone := "+15550001" |}
                Clinic.db "bcrypt:wonderland2" Clinic.alice) as [Hindexed _];
      [reflexivity | reflexivity | reflexivity | apply list_elem_of_here | reflexivity |].
    exact (proj2 (Hindexed eq_refl)).
  - destruct (@RegisterUser_conflict Clinic.crypto
                {| storeFault := λ _, false; uniqueEmails := false;
                   NewObjectID := 100%N; Now := 0 |}
                {| reg_FullName := "Alice Again"; reg_Email := "alice@example.com";
                   reg_Password := "wonderland2"; reg_Role := "";
                   reg_Phone := "+15550001" |}
                Clinic.db "bcrypt:wonderland2" Clinic.alice) as [_ Hplain];
      [reflexivity | reflexivity | reflexivity | apply list_elem_of_here | reflexivity |].
    refine (proj1 (Hplain eq_refl _)). not_listed.
Defined.

Lemma CreateAppointment_unknown_patient_witness :
  kindOf (response (CreateAppointment Clinic.env
                      {| gin.userID := "not an identifier"; gin.userRole := "client";
                         gin.params := ∅; gin.queries := ∅ |}
                      (Some {| req_StartTime := "2024-08-01T10:00:00Z";
                               req_EndTime := "2024-08-01T10:30:00Z";
                               req_Service := "Filling" |}) Clinic.db)) = Some Internal.
Proof.
  apply (CreateAppointment_unknown_patient Clinic.env
           {| gin.userID := "not an identifier"; gin.userRole := "client";
              gin.params := ∅; gin.queries := ∅ |}
           {| req_StartTime := "2024-08-01T10:00:00Z";
              req_EndTime := "2024-08-01T10:30:00Z"; req_Service := "Filling" |}
           Clinic.db (time.Date 2024 8 1 10 0 0 0) (time.Date 2024 8 1 10 30 0 0));
    [reflexivity | reflexivity | reflexivity | not_listed].
Defined.
